(** * ASR-RTM: the Vosk recognition plugin and the configuration manager

    A shallow embedding of
      - [src/core/plugins/asr/vosk_plugin/vosk_plugin.py] (class [VoskPlugin]
        and the stand-in [Model] / [KaldiRecognizer] classes of that file),
      - [src/utils/config_manager.py] (class [ConfigManager]),
    together with the properties of the specification that concern them.

    Python values are modelled by [pyval]; a [str] is its sequence of code
    points; a [dict] with string keys is a [gmap]; dictionaries that are
    shared between the caller and the plugin live in an explicit store and
    are addressed by reference.  The configuration of the manager is a
    graph of dict objects: its values are [ConfigManager.pyobj], where a
    dict is known by its reference, and every assignment is to an entry of
    an object.  Exceptions are explicit ([res]). *)

From Stdlib Require Import ZArith Lia Ascii String.
From stdpp Require Import gmap strings list fin_maps.

Set Warnings "-register-all".
Local Open Scope Z_scope.

(* ===================================================================== *)
(** ** Python values *)
(* ===================================================================== *)

Module Py.

(** A Python [str]: the list of its Unicode code points. *)
Abbreviation pystr := (list N).

(** An ASCII literal as a [pystr]. *)
Definition py (s : string) : pystr :=
  (fun a => N_of_ascii a) <$> list_ascii_of_string s.

Inductive pyval : Type :=
| VNone
| VBool (b : bool)
| VInt (n : Z)
| VStr (s : pystr)
| VDict (d : gmap pystr pyval).

(** Truth value testing ([if v:], [not v]). *)
Definition truthy (v : pyval) : bool :=
  match v with
  | VNone => false
  | VBool b => b
  | VInt n => negb (n =? 0)
  | VStr s => match s with [] => false | _ => true end
  | VDict d => negb (bool_decide (d = ∅))
  end.

Inductive exn : Type :=
| TypeError
| AttributeError
| IndexError
| WaveError
| OverflowError
| EngineError (code : N).

(** The outcome of evaluating an expression or a block: a value, or a
    raised exception. *)
Inductive res (A : Type) : Type :=
| Ok (a : A)
| Raise (e : exn).
Arguments Ok {A} a.
Arguments Raise {A} e.

(** [d.get(key, default)] *)
Definition dict_get (d : gmap pystr pyval) (key : pystr) (default : pyval)
  : pyval :=
  match d !! key with Some v => v | None => default end.

(** [s.startswith(p)] *)
Fixpoint startswith (s p : pystr) : bool :=
  match p, s with
  | [], _ => true
  | _ :: _, [] => false
  | a :: p', b :: s' => (a =? b)%N && startswith s' p'
  end.

(** ['.' in s] *)
Definition has_dot (s : pystr) : bool := existsb (N.eqb 46) s.

(** [s.split('.')] *)
Fixpoint split_dot (s : pystr) : list pystr :=
  match s with
  | [] => [[]]
  | c :: s' =>
      if (c =? 46)%N then [] :: split_dot s'
      else match split_dot s' with
           | [] => [[c]]
           | seg :: rest => (c :: seg) :: rest
           end
  end.

End Py.
Export Py.

(* ===================================================================== *)
(** ** The operating system as the program sees it *)
(* ===================================================================== *)

Module Os.

(** The functions of [os.path] that depend on the platform. *)
Class OsPath := {
  isabs : pystr -> bool;
  join : pystr -> pystr -> pystr;
  dirname : pystr -> pystr
}.

(** What [wave.open] finds in a RIFF/WAVE file. A frame of a mono 16-bit
    file is one sample. *)
Record wave_file := {
  nchannels : Z;
  sampwidth : Z;
  comptype : pystr;
  frames : list Z
}.

Inductive fentry : Type :=
| Dir
| File (wav : option wave_file).  (* [None]: [wave.open] raises on it *)

(** [entries] answers for a path exactly as written by the program
    (relative paths are relative to the working directory). *)
Record filesystem := {
  entries : gmap pystr fentry;
  open_fds : gset Z;
  cwd : pystr;               (* os.getcwd() *)
  module_abspath : pystr     (* os.path.abspath(__file__) of vosk_plugin.py *)
}.

(** [os.path.exists(p)] for a [str] *)
Definition path_exists (fs : filesystem) (p : pystr) : bool :=
  match entries fs !! p with Some _ => true | None => false end.

(** [os.path.isdir(p)] for a [str] *)
Definition path_isdir (fs : filesystem) (p : pystr) : bool :=
  match entries fs !! p with Some Dir => true | _ => false end.

(** [os.path.exists(v)] for any value: an [int] names a file descriptor
    and must fit a C [int], other non-path types raise [TypeError]. *)
Definition exists_val (fs : filesystem) (v : pyval) : res bool :=
  match v with
  | VStr p => Ok (path_exists fs p)
  | VInt n =>
      if bool_decide (-2147483648 <= n <= 2147483647)
      then Ok (bool_decide (n ∈ open_fds fs))
      else Raise OverflowError
  | VBool b => Ok (bool_decide ((if b then 1 else 0) ∈ open_fds fs))
  | _ => Raise TypeError
  end.

(** [os.path.join(v, name)]: [TypeError] unless [v] is a [str]. *)
Definition join_val `{OsPath} (v : pyval) (name : pystr) : res pystr :=
  match v with
  | VStr p => Ok (join p name)
  | _ => Raise TypeError
  end.

(** [os.path.isabs(v)]: [TypeError] unless [v] is a [str]. *)
Definition isabs_val `{OsPath} (v : pyval) : res bool :=
  match v with
  | VStr p => Ok (isabs p)
  | _ => Raise TypeError
  end.

(** *** [posixpath] *)

Definition slash : N := 47%N.

Definition posix_isabs (p : pystr) : bool :=
  match p with c :: _ => (c =? slash)%N | [] => false end.

Definition ends_with_slash (p : pystr) : bool :=
  match last p with Some c => (c =? slash)%N | None => false end.

Definition posix_join (a b : pystr) : pystr :=
  if posix_isabs b then b
  else match a with
       | [] => b
       | _ => if ends_with_slash a then a ++ b else a ++ slash :: b
       end.

(** [head.rstrip('/')], on the reversed string *)
Fixpoint lstrip_slash (r : pystr) : pystr :=
  match r with
  | c :: r' => if (c =? slash)%N then lstrip_slash r' else r
  | [] => []
  end.

(** Drop the last path component: on the reversed string, everything up
    to the first separator. *)
Fixpoint drop_component (r : pystr) : pystr :=
  match r with
  | c :: r' => if (c =? slash)%N then r else drop_component r'
  | [] => []
  end.

Definition posix_dirname (p : pystr) : pystr :=
  let head := drop_component (reverse p) in
  match lstrip_slash head with
  | [] => reverse head                 (* empty, or only slashes *)
  | stripped => reverse stripped
  end.

Definition posix : OsPath :=
  {| isabs := posix_isabs; join := posix_join; dirname := posix_dirname |}.

End Os.
Export Os.

(* ===================================================================== *)
(** ** [ConfigManager] (src/utils/config_manager.py) *)
(* ===================================================================== *)

Module ConfigManager.

(** A reference to a dict object. *)
Abbreviation ref := positive.

(** The values of a configuration as the interpreter holds them. A dict
    is an object: what a variable, an attribute or an entry of another
    dict holds is a reference to it, and several places may hold the
    same one. *)
Inductive pyobj : Type :=
| ONone
| OBool (b : bool)
| OInt (n : Z)
| OStr (s : pystr)
| ORef (r : ref).

(** The dict objects of the program, by reference. *)
Abbreviation heap := (gmap ref (gmap pystr pyobj)).

(** The program state the modelled methods use: the dict objects, and
    the attribute [self._config]. *)
Record t := { objects : heap; _config : pyobj }.

(** [ConfigManager()]: [__init__] sets [self._config = {}]. *)
Definition init : t := {| objects := {[ 1%positive := ∅ ]}; _config := ORef 1 |}.

(** The dict a value is, [None] when [isinstance(v, dict)] is false. *)
Definition deref (h : heap) (v : pyobj) : option (gmap pystr pyobj) :=
  match v with
  | ORef r => h !! r
  | _ => None
  end.

(** Truth value testing ([if v:], [not v]). *)
Definition truth_value (h : heap) (v : pyobj) : bool :=
  match v with
  | ONone => false
  | OBool b => b
  | OInt n => negb (n =? 0)
  | OStr s => match s with [] => false | _ => true end
  | ORef r => match h !! r with
              | Some d => negb (bool_decide (d = ∅))
              | None => false
              end
  end.

(** [{}]: a new dict object. *)
Definition new_dict (h : heap) : ref * heap :=
  let r := fresh (dom h) in (r, <[r := ∅]> h).

(** "如果只有一个键且包含点号，按点号分割": a single key holding a dot is
    split at the dots. *)
Definition split_keys (keys : list pystr) : list pystr :=
  match keys with
  | [k] => if has_dot k then split_dot k else keys
  | _ => keys
  end.

(** The [for key in keys] loop of [get_config]. *)
Fixpoint lookup_path (h : heap) (value : pyobj) (keys : list pystr)
    (default : pyobj) : pyobj :=
  match keys with
  | [] => value
  | key :: keys' =>
      match deref h value with
      | Some d =>
          match d !! key with
          | Some v => lookup_path h v keys' default
          | None => default
          end
      | None => default
      end
  end.

Definition get_config (self : t) (keys : list pystr) (default : pyobj)
  : pyobj :=
  match keys with
  | [] => default
  | _ => lookup_path (objects self) (_config self) (split_keys keys) default
  end.

(** [config[key]] when the key is there and holds a dict: the tests
    [key not in config] and [not isinstance(config[key], dict)] of the
    loop of [set_config] both fail. *)
Definition subdict (h : heap) (config : ref) (key : pystr) : option ref :=
  match h !! config with
  | Some d =>
      match d !! key with
      | Some (ORef r) => if bool_decide (is_Some (h !! r)) then Some r else None
      | _ => None
      end
  | None => None
  end.

(** The [for key in keys[:-1]] loop of [set_config] followed by
    [config[keys[-1]] = value], started at the dict [config]. Every write
    is an assignment to an entry of a dict object, seen by whoever holds
    a reference to that object. *)
Fixpoint store_path (h : heap) (config : ref) (init : list pystr)
    (lastk : pystr) (value : pyobj) : heap :=
  match init with
  | [] => alter (insert lastk value) config h
  | key :: init' =>
      match subdict h config key with
      | Some r => store_path h r init' lastk value
      | None =>
          (* config[key] = {} *)
          let r := fresh (dom h) in
          store_path (<[r := ∅]> (alter (insert key (ORef r)) config h))
            r init' lastk value
      end
  end.

(** [set_config] on a root that is not a dict. With one key the root is
    replaced ("重置根配置") by a new dict that holds the entry; with more,
    the first iteration rebinds the local [config] to a new dict, every
    write lands in objects nothing else refers to, and the root stays. *)
Definition set_config_reset (self : t) (init : list pystr) (lastk : pystr)
    (value : pyobj) : bool * t :=
  match init with
  | [] =>
      let r := fresh (dom (objects self)) in
      (true, {| objects := <[r := {[ lastk := value ]}]> (objects self);
                _config := ORef r |})
  | _ :: _ => (true, self)
  end.

Definition set_config (self : t) (value : pyobj) (keys : list pystr)
  : bool * t :=
  match keys with
  | [] => (false, self)
  | _ =>
      let keys := split_keys keys in
      let init := removelast keys in
      let lastk := List.last keys [] in
      match _config self with
      | ONone =>
          (* if self._config is None: self._config = {} *)
          let '(r, h) := new_dict (objects self) in
          (true, {| objects := store_path h r init lastk value;
                    _config := ORef r |})
      | ORef r =>
          match objects self !! r with
          | Some _ =>
              (true, {| objects := store_path (objects self) r init lastk value;
                        _config := ORef r |})
          | None => set_config_reset self init lastk value
          end
      | _ => set_config_reset self init lastk value
      end
  end.

Definition sherpa_required_files : list pystr :=
  [py "encoder.onnx"; py "decoder.onnx"; py "joiner.onnx"; py "tokens.txt"].

Definition vosk_required_dirs : list pystr := [py "am"; py "conf"].

(** [validate_model_files(model_path, model_type)] *)
Definition validate_model_files `{OsPath} (fs : filesystem)
    (model_path model_type : pystr) : bool :=
  if negb (path_exists fs model_path) then false
  else if startswith model_type (py "sherpa") then
    forallb (fun file => path_exists fs (join model_path file))
            sherpa_required_files
  else if bool_decide (model_type = py "vosk") then
    forallb (fun dir_name =>
               let dir_path := join model_path dir_name in
               path_exists fs dir_path && path_isdir fs dir_path)
            vosk_required_dirs
  else true.

(** The root configuration is a dict, or still [None] (the class
    attribute before [__init__]). [load_config], [_init_default_config]
    and [update_and_save] only ever leave a dict there. *)
Definition root_is_mapping (self : t) : Prop :=
  _config self = ONone
  \/ exists r, _config self = ORef r /\ is_Some (objects self !! r).

(** *** The other accessors *)

(** [get_ui_config]: the keys are put behind "ui"; a dotted key is then no
    longer alone and is not split. *)
Definition get_ui_config (self : t) (keys : list pystr) (default : pyobj)
  : pyobj :=
  get_config self (py "ui" :: keys) default.

Definition set_ui_config (self : t) (value : pyobj) (keys : list pystr)
  : bool * t :=
  set_config self value (py "ui" :: keys).


Definition get_plugin_config (self : t) (plugin_id : pystr) : pyobj :=
  let plugin_config :=
    get_config self [py "plugins"; py "plugins"; plugin_id] ONone in
  if truth_value (objects self) plugin_config then plugin_config
  else get_config self [py "plugins"; plugin_id] ONone.

(** [self.get_config(..., default={})]: the default is a new dict. *)
Definition get_config_or_new (self : t) (keys : list pystr) : pyobj * t :=
  let '(r, h) := new_dict (objects self) in
  let self := {| objects := h; _config := _config self |} in
  (get_config self keys (ORef r), self).


Definition get_default_model (self : t) : pyobj :=
  let default_model := get_config self [py "asr"; py "default_model"] ONone in
  if truth_value (objects self) default_model then default_model
  else
    let default_model :=
      get_config self [py "transcription"; py "default_model"] ONone in
    if truth_value (objects self) default_model then default_model
    else OStr (py "vosk_small").

Definition get_all_config (self : t) : pyobj * t :=
  match deref (objects self) (_config self) with
  | Some _ => (_config self, self)
  | None =>
      let '(r, h) := new_dict (objects self) in
      (ORef r, {| objects := h; _config := _config self |})
  end.

Definition get_all_models (self : t) : pyobj * t :=
  let '(models, self) := get_config_or_new self [py "models"; py "asr"] in
  if truth_value (objects self) models then (models, self)
  else
    let '(models, self) := get_config_or_new self [py "asr"; py "models"] in
    if truth_value (objects self) models then (models, self)
    else get_config_or_new self [py "asr"].

Definition get_all_plugins (self : t) : pyobj * t :=
  let '(plugins, self) := get_config_or_new self [py "plugins"; py "plugins"] in
  if truth_value (objects self) plugins then (plugins, self)
  else get_config_or_new self [py "plugins"].

(** [sub in s] for two strings *)
Fixpoint contains (s sub : pystr) : bool :=
  startswith s sub
  || match s with
     | [] => false
     | _ :: s' => contains s' sub
     end.

(** [validate_config(config)] for the dict [config]. The method has no
    [try]: on an "asr" entry that is not a dict the membership test or the
    [.get] raises. *)
Definition validate_config (h : heap) (config : gmap pystr pyobj) : res bool :=
  if bool_decide (config = ∅) then Ok false
  else if negb (bool_decide (is_Some (config !! py "app"))) then Ok false
  else
    match config !! py "asr" with
    | None => Ok false
    | Some (ORef r) =>
        match h !! r with
        | Some asr =>
            match asr !! py "models" with
            | None => Ok false
            | Some models => Ok (truth_value h models)
            end
        | None => Raise TypeError
        end
    | Some (OStr s) =>
        if negb (contains s (py "models")) then Ok false
        else Raise AttributeError          (* str has no .get *)
    | Some _ => Raise TypeError            (* 'models' not in <scalar> *)
    end.

(** *** Saving *)

(** A [str] the UTF-8 codec can write: it holds no surrogate code point. *)
Definition encodable (s : pystr) : bool :=
  forallb (fun c => negb ((55296 <=? c)%N && (c <=? 57343)%N)) s.

(** How deep [json.dump] follows dicts within dicts before the
    interpreter stops it. *)
Class JsonLib := { max_depth : nat }.

(** What [json.dump] writes for a dict: the tree of values under it.
    There is none when a key or a string cannot be encoded, or when the
    dicts are nested deeper than the interpreter allows, as they are when
    a dict contains itself: [json.dump] then raises, having written a
    part of the text. *)
Fixpoint dict_to_json (fuel : nat) (h : heap) (d : gmap pystr pyobj)
  : option pyval :=
  match fuel with
  | O => None
  | S fuel' =>
      let item (v : pyobj) : option pyval :=
        match v with
        | ONone => Some VNone
        | OBool b => Some (VBool b)
        | OInt n => Some (VInt n)
        | OStr s => if encodable s then Some (VStr s) else None
        | ORef r =>
            match h !! r with
            | Some d' => dict_to_json fuel' h d'
            | None => None
            end
        end in
      let items := item <$> d in
      if bool_decide (map_Forall (fun k o => encodable k = true /\ is_Some o) items)
      then Some (VDict (omap id items))
      else None
  end.

(** The content of a file: JSON text, known by the value it denotes, or
    the part of a text that a failed [json.dump] has left. *)
Inductive content : Type :=
| Json (v : pyval)
| Garbled.

(** The files on disk, by path, and the paths that cannot be opened for
    writing. *)
Record disk := {
  json_files : gmap pystr content;
  read_only : gset pystr
}.

(** The path attributes [__init__] sets (the tests redirect them). *)
Record paths := {
  _config_path : pystr;
  _plugins_path : pystr;
  _ui_config_path : pystr;
  _translation_config_path : pystr
}.

Definition default_paths `{OsPath} : paths := {|
  _config_path := join (py "config") (py "config.json");
  _plugins_path := join (py "config") (py "plugins.json");
  _ui_config_path := join (py "config") (py "ui_config.json");
  _translation_config_path := join (py "config") (py "translation_config.json")
|}.

(** [os.path.join('config', 'models.json')], written out in [save_config] *)
Definition models_path `{OsPath} : pystr := join (py "config") (py "models.json").

(** The disk once [c] is the content of the file at [path]. *)
Definition put_file (path : pystr) (c : content) (dk : disk) : disk :=
  {| json_files := <[path := c]> (json_files dk); read_only := read_only dk |}.

(** What a [json.dump] that wrote [text], or failed, leaves in the file. *)
Definition dumped (text : option pyval) : content :=
  match text with
  | Some v => Json v
  | None => Garbled
  end.

(** [with open(path, 'w') as f: json.dump(config, f)], where [text] is
    what [json.dump] writes for [config]. The file is emptied as soon as
    it is open. *)
Definition write_json (path : pystr) (text : option pyval) (dk : disk)
  : bool * disk :=
  if bool_decide (path ∈ read_only dk) then (false, dk)
  else match text with
       | Some v => (true, put_file path (Json v) dk)
       | None => (false, put_file path Garbled dk)
       end.

(** The writes of one [save_config], in order, up to the first that fails. *)
Fixpoint write_all (writes : list (pystr * option pyval)) (dk : disk)
  : bool * disk :=
  match writes with
  | [] => (true, dk)
  | (path, text) :: writes' =>
      match write_json path text dk with
      | (true, dk') => write_all writes' dk'
      | (false, dk') => (false, dk')
      end
  end.

(** [k not in ['plugins', 'ui', 'translation']] *)
Definition in_main (k : pystr) : bool :=
  negb (bool_decide (k ∈ [py "plugins"; py "ui"; py "translation"])).

(** The dict [main_config] that [save_config] builds for the main file. *)
Definition main_part (d : gmap pystr pyobj) : gmap pystr pyobj :=
  filter (fun kv => in_main kv.1 = true) d.

(** [self._config.get(key, {})], replaced by [{}] when it is not a dict *)
Definition section_dict (h : heap) (root : gmap pystr pyobj) (key : pystr)
  : gmap pystr pyobj :=
  match root !! key with
  | Some v => match deref h v with Some d => d | None => ∅ end
  | None => ∅
  end.

(** [section is None or section == name] *)
Definition wants (section : option pystr) (name : pystr) : bool :=
  match section with
  | None => true
  | Some s => bool_decide (s = name)
  end.

(** The root as [save_config] and [update_and_save] see it after
    [if self._config is None: self._config = {}]. *)
Definition ensure_root (self : t) : t :=
  match _config self with
  | ONone =>
      let '(r, h) := new_dict (objects self) in
      {| objects := h; _config := ORef r |}
  | _ => self
  end.

Definition save_config `{OsPath} `{JsonLib} (ps : paths) (self : t)
    (section : option pystr) (dk : disk) : bool * t * disk :=
  let self := ensure_root self in
  let h := objects self in
  match deref h (_config self) with
  | Some d =>
      let dump := dict_to_json max_depth h in
      let writes :=
        (if wants section (py "main")
         then [(_config_path ps, dump (main_part d))] else [])
        ++ (if wants section (py "plugins")
            then [(_plugins_path ps, dump (section_dict h d (py "plugins")))]
            else [])
        ++ (if wants section (py "ui")
            then [(_ui_config_path ps, dump (section_dict h d (py "ui")))]
            else [])
        ++ (if wants section (py "translation")
            then [(_translation_config_path ps,
                   dump (section_dict h d (py "translation")))]
            else [])
        ++ (if wants section (py "models")
            then [(models_path, dump (section_dict h d (py "models")))]
            else []) in
      let '(ok, dk') := write_all writes dk in
      (ok, self, dk')
  | None =>
      (* the first step that is wanted raises on [self._config.items()] or
         [self._config.get]; with no step wanted nothing is touched *)
      (negb (wants section (py "main") || wants section (py "plugins")
             || wants section (py "ui") || wants section (py "translation")
             || wants section (py "models")),
       self, dk)
  end.

Definition update_window_config `{OsPath} `{JsonLib} (ps : paths) (self : t)
    (config : pyobj) (dk : disk) : bool * t * disk :=
  let '(ok, self') := set_config self config [py "window"] in
  if ok then save_config ps self' (Some (py "main")) dk
  else (false, self', dk).

Definition update_and_save `{OsPath} `{JsonLib} (ps : paths) (self : t)
    (section : pystr) (config : pyobj) (dk : disk) : bool * t * disk :=
  let self := ensure_root self in
  match _config self with
  | ORef r =>
      match objects self !! r with
      | Some d =>
          (* self._config[section] = config *)
          save_config ps
            {| objects := <[r := <[section := config]> d]> (objects self);
               _config := ORef r |}
            (Some section) dk
      | None => (false, self, dk)
      end
  | _ => (false, self, dk)       (* item assignment raises *)
  end.

Definition register_model `{OsPath} `{JsonLib} (ps : paths) (self : t)
    (model_id : pystr) (model_config : pyobj) (dk : disk) : bool * t * disk :=
  let '(ok, self') :=
    set_config self model_config [py "asr"; py "models"; model_id] in
  if negb ok then (false, self', dk)
  else save_config ps self' (Some (py "main")) dk.

Definition register_plugin `{OsPath} `{JsonLib} (ps : paths) (self : t)
    (plugin_id : pystr) (plugin_config : pyobj) (dk : disk) : bool * t * disk :=
  let '(ok, self') :=
    match get_config self [py "plugins"; py "plugins"] ONone with
    | ONone => set_config self plugin_config [py "plugins"; plugin_id]
    | _ => set_config self plugin_config [py "plugins"; py "plugins"; plugin_id]
    end in
  if negb ok then (false, self', dk)
  else save_config ps self' (Some (py "plugins")) dk.

(** *** Notions used to state the properties *)


(** The value at the end of a key path, when every key is there. *)
Fixpoint find_path (h : heap) (value : pyobj) (keys : list pystr)
  : option pyobj :=
  match keys with
  | [] => Some value
  | key :: keys' =>
      match deref h value with
      | Some d =>
          match d !! key with
          | Some v => find_path h v keys'
          | None => None
          end
      | None => None
      end
  end.

(** Following keys in a JSON value. *)
Fixpoint json_path (v : pyval) (keys : list pystr) : option pyval :=
  match keys with
  | [] => Some v
  | key :: keys' =>
      match v with
      | VDict m => match m !! key with
                   | Some v' => json_path v' keys'
                   | None => None
                   end
      | _ => None
      end
  end.

(** The entries [store_path] follows: those of the keys of [init] that
    are there and hold a dict, up to the first that is not. *)
Fixpoint followed (h : heap) (config : ref) (init : list pystr)
  : list (ref * pystr) :=
  match init with
  | [] => []
  | key :: init' =>
      match subdict h config key with
      | Some r => (config, key) :: followed h r init'
      | None => []
      end
  end.

(** The one entry of a dict that was there before that [store_path]
    assigns: the first of [init] that holds no dict, else the entry of
    the last key. Its other assignments are to dicts it has made. *)
Fixpoint written (h : heap) (config : ref) (init : list pystr)
    (lastk : pystr) : ref * pystr :=
  match init with
  | [] => (config, lastk)
  | key :: init' =>
      match subdict h config key with
      | Some r => written h r init' lastk
      | None => (config, key)
      end
  end.

(** The entries a [lookup_path] reads; there are none to speak of when
    it meets a reference to no object. *)
Fixpoint read_entries (h : heap) (value : pyobj) (keys : list pystr)
  : option (list (ref * pystr)) :=
  match keys with
  | [] => Some []
  | key :: keys' =>
      match value with
      | ORef r =>
          match h !! r with
          | Some d =>
              match d !! key with
              | Some v => cons (r, key) <$> read_entries h v keys'
              | None => Some [(r, key)]
              end
          | None => None
          end
      | _ => Some []
      end
  end.

(** How a heap [h'] stands to [h] when all that was in [h] is still
    there but, at most, the entry [w]. *)
Definition keeps_but (w : ref * pystr) (h h' : heap) : Prop :=
  forall r d, h !! r = Some d ->
    exists d', h' !! r = Some d' /\ forall k, (r, k) ≠ w -> d' !! k = d !! k.

(** The entry [set_config] assigns with these keys is not one of the
    entries it follows to get there. It is one only when a dict is
    reached again on the way and the last key is the key that was
    followed from it. *)
Definition entry_off_path (self : t) (keys : list pystr) : Prop :=
  match _config self with
  | ORef r =>
      written (objects self) r (removelast (split_keys keys))
        (List.last (split_keys keys) [])
      ∉ followed (objects self) r (removelast (split_keys keys))
  | _ => True
  end.

(** The root dict, by reference and by content, after
    [if self._config is None: self._config = {}]. *)
Definition root_ref (self : t) : ref :=
  match _config (ensure_root self) with ORef r => r | _ => 1%positive end.

Definition root_dict (self : t) : gmap pystr pyobj :=
  match deref (objects (ensure_root self)) (_config (ensure_root self)) with
  | Some d => d
  | None => ∅
  end.

(** A section name [save_config] has no file for. *)
Definition unsaved_section (section : pystr) : Prop :=
  section ∉ [py "main"; py "plugins"; py "ui"; py "translation"; py "models"].

End ConfigManager.

(* ===================================================================== *)
(** ** State and exceptions *)
(* ===================================================================== *)

Module Eff.

(** A computation over a mutable state [S] that returns a value or
    raises; what it wrote before raising stays written. *)
Definition M (S A : Type) : Type := S -> res A * S.

#[global] Instance M_ret {S} : MRet (M S) := fun A a s => (Ok a, s).

#[global] Instance M_bind {S} : MBind (M S) := fun A B f c s =>
  match c s with
  | (Ok a, s') => f a s'
  | (Raise e, s') => (Raise e, s')
  end.

Definition raise {S A} (e : exn) : M S A := fun s => (Raise e, s).

(** [try: c except Exception as e: h e] *)
Definition try_except {S A} (c : M S A) (h : exn -> M S A) : M S A :=
  fun s =>
    match c s with
    | (Ok a, s') => (Ok a, s')
    | (Raise e, s') => h e s'
    end.

Definition lift {S A} (r : res A) : M S A := fun s => (r, s).
Definition get {S} : M S S := fun s => (Ok s, s).
Definition modify {S} (f : S -> S) : M S unit := fun s => (Ok tt, f s).

(** [c] only moves the state along [R], whatever its outcome. *)
Definition keeps {S A} (R : S -> S -> Prop) (c : M S A) : Prop :=
  forall s, R s (c s).2.

End Eff.
Export Eff.

(* ===================================================================== *)
(** ** [VoskPlugin] (src/core/plugins/asr/vosk_plugin/vosk_plugin.py) *)
(* ===================================================================== *)

Module Vosk.

(** The recognition library the plugin drives through [vosk_lib]:
    [Model(path)], [KaldiRecognizer(model, sample_rate)] and the
    recognizer's methods. [Result] and [FinalResult] stand for the call
    followed by [json.loads]. A method may raise, and mutates the
    recognizer it is called on. *)
Class VoskLib := {
  Model : Type;
  KaldiRecognizer : Type;
  new_Model : pystr -> res Model;
  new_KaldiRecognizer : option Model -> pyval -> res KaldiRecognizer;
  SetWords : pyval -> KaldiRecognizer -> res unit * KaldiRecognizer;
  AcceptWaveform : list Z -> KaldiRecognizer -> res bool * KaldiRecognizer;
  Result : KaldiRecognizer -> res (gmap pystr pyval) * KaldiRecognizer;
  PartialResult : KaldiRecognizer -> res (gmap pystr pyval) * KaldiRecognizer;
  FinalResult : KaldiRecognizer -> res (gmap pystr pyval) * KaldiRecognizer;
  Reset : KaldiRecognizer -> res unit * KaldiRecognizer
}.

(** *** The stand-in library of the source file (lines 26-66) *)

Module Mock.
Record Model := { model_path : pystr }.
Record KaldiRecognizer := {
  model : option Model;
  sample_rate : pyval;
  use_words : option pyval      (* set by SetWords only *)
}.

Definition SetWords (w : pyval) (r : KaldiRecognizer)
  : res unit * KaldiRecognizer :=
  (Ok tt, {| model := model r; sample_rate := sample_rate r;
             use_words := Some w |}).

(** '{"text": "这是一个测试结果"}' *)
Definition result_text : pystr :=
  [36825; 26159; 19968; 20010; 27979; 35797; 32467; 26524]%N.
(** '{"partial": "这是一个部分结果"}' *)
Definition partial_text : pystr :=
  [36825; 26159; 19968; 20010; 37096; 20998; 32467; 26524]%N.
(** '{"text": "这是一个最终结果"}' *)
Definition final_text : pystr :=
  [36825; 26159; 19968; 20010; 26368; 32456; 32467; 26524]%N.
End Mock.

Definition vosk_lib : VoskLib := {|
  Model := Mock.Model;
  KaldiRecognizer := Mock.KaldiRecognizer;
  new_Model := fun p => Ok {| Mock.model_path := p |};
  new_KaldiRecognizer := fun m sr =>
    Ok {| Mock.model := m; Mock.sample_rate := sr; Mock.use_words := None |};
  SetWords := Mock.SetWords;
  AcceptWaveform := fun _ r => (Ok true, r);
  Result := fun r => (Ok {[ py "text" := VStr Mock.result_text ]}, r);
  PartialResult := fun r => (Ok {[ py "partial" := VStr Mock.partial_text ]}, r);
  FinalResult := fun r => (Ok {[ py "text" := VStr Mock.final_text ]}, r);
  Reset := fun r => (Ok tt, r)
|}.

(** [str.upper()] of a one-character string (it may give several
    characters). *)
Class Unicode := { upper : N -> pystr }.

(** [upper] on ASCII; also right on every caseless code point. *)
Definition ascii_upper : Unicode :=
  {| upper := fun c => if ((97 <=? c) && (c <=? 122))%N then [(c - 32)%N] else [c] |}.

(** What [logger.error] reports, by call site. *)
Inductive error_kind : Type :=
| InitializationFailed        (* initialize *)
| ConfigPathMissing           (* setup, line 155 *)
| ModelPathMissing            (* setup, lines 207 and 238; validate_files, line 318 *)
| ModelLoadFailed             (* setup, line 259 *)
| RecognizerCreationFailed    (* setup, line 276 *)
| SetupFailed                 (* setup, line 288 *)
| AmDirMissing                (* validate_files, line 324 *)
| FinalMdlMissing             (* validate_files, line 330 *)
| ValidationFailed            (* validate_files, line 336 *)
| LoadModelFailed             (* load_model, line 386 *)
| RecognizerNotInitialized    (* transcribe_file, line 468 *)
| FileNotFound                (* transcribe_file, line 473 *)
| UnsupportedFormat           (* transcribe_file, line 482 *)
| TranscribeFailed.           (* transcribe_file, line 523 *)

(** The observable record of a run: errors reported and blocks
    returned by [wf.readframes]. *)
Inductive event : Type :=
| EvError (k : error_kind)
| EvReadFrames (data : list Z).

(** References to dictionaries. *)
Abbreviation loc := positive.

(** [str(e)] of a caught exception. *)
Class ExnText := { exn_str : exn -> pystr }.

Section Plugin.
Context {os : OsPath} {lib : VoskLib} {uni : Unicode}.

(** The attributes of a [VoskPlugin] instance. [_config] is [None]
    while the attribute has never been assigned, else the reference
    it holds. *)
Record plugin := {
  _config : option loc;
  _initialized : bool;
  model : option Model;
  recognizer : option KaldiRecognizer;
  sample_rate : pyval;
  use_words : pyval;
  engine_type : pystr;
  model_dir : pyval
}.

(** The dictionaries of the program, the plugin, and the events so far. *)
Record world := {
  store : gmap loc (gmap pystr pyval);
  self : plugin;
  trace : list event
}.

(** [VoskPlugin.__init__] *)
Definition new_plugin : plugin := {|
  _config := None; _initialized := false;
  model := None; recognizer := None;
  sample_rate := VInt 16000; use_words := VBool true;
  engine_type := py "vosk_small"; model_dir := VNone
|}.

Definition upd_self (f : plugin -> plugin) (w : world) : world :=
  {| store := store w; self := f (self w); trace := trace w |}.

Definition upd_store
    (f : gmap loc (gmap pystr pyval) -> gmap loc (gmap pystr pyval))
    (w : world) : world :=
  {| store := f (store w); self := self w; trace := trace w |}.

Definition add_event (ev : event) (w : world) : world :=
  {| store := store w; self := self w; trace := trace w ++ [ev] |}.

Definition set_self (f : plugin -> plugin) : M world unit :=
  modify (upd_self f).

Definition set_store
    (f : gmap loc (gmap pystr pyval) -> gmap loc (gmap pystr pyval))
  : M world unit :=
  modify (upd_store f).

Definition log (ev : event) : M world unit := modify (add_event ev).

Definition with_config (c : option loc) (p : plugin) : plugin :=
  {| _config := c; _initialized := _initialized p; model := model p;
     recognizer := recognizer p; sample_rate := sample_rate p;
     use_words := use_words p; engine_type := engine_type p;
     model_dir := model_dir p |}.
Definition with_initialized (b : bool) (p : plugin) : plugin :=
  {| _config := _config p; _initialized := b; model := model p;
     recognizer := recognizer p; sample_rate := sample_rate p;
     use_words := use_words p; engine_type := engine_type p;
     model_dir := model_dir p |}.
Definition with_model (m : option Model) (p : plugin) : plugin :=
  {| _config := _config p; _initialized := _initialized p; model := m;
     recognizer := recognizer p; sample_rate := sample_rate p;
     use_words := use_words p; engine_type := engine_type p;
     model_dir := model_dir p |}.
Definition with_recognizer (r : option KaldiRecognizer) (p : plugin) : plugin :=
  {| _config := _config p; _initialized := _initialized p; model := model p;
     recognizer := r; sample_rate := sample_rate p;
     use_words := use_words p; engine_type := engine_type p;
     model_dir := model_dir p |}.
Definition with_sample_rate (v : pyval) (p : plugin) : plugin :=
  {| _config := _config p; _initialized := _initialized p; model := model p;
     recognizer := recognizer p; sample_rate := v;
     use_words := use_words p; engine_type := engine_type p;
     model_dir := model_dir p |}.
Definition with_use_words (v : pyval) (p : plugin) : plugin :=
  {| _config := _config p; _initialized := _initialized p; model := model p;
     recognizer := recognizer p; sample_rate := sample_rate p;
     use_words := v; engine_type := engine_type p;
     model_dir := model_dir p |}.
Definition with_engine_type (s : pystr) (p : plugin) : plugin :=
  {| _config := _config p; _initialized := _initialized p; model := model p;
     recognizer := recognizer p; sample_rate := sample_rate p;
     use_words := use_words p; engine_type := s;
     model_dir := model_dir p |}.
Definition with_model_dir (v : pyval) (p : plugin) : plugin :=
  {| _config := _config p; _initialized := _initialized p; model := model p;
     recognizer := recognizer p; sample_rate := sample_rate p;
     use_words := use_words p; engine_type := engine_type p;
     model_dir := v |}.

(** Reading [self._config]: [AttributeError] while it was never set. *)
Definition config_ref : M world loc := fun w =>
  match _config (self w) with
  | Some l => (Ok l, w)
  | None => (Raise AttributeError, w)
  end.

Definition deref (l : loc) : M world (gmap pystr pyval) := fun w =>
  match store w !! l with
  | Some d => (Ok d, w)
  | None => (Raise AttributeError, w)
  end.

Definition config_dict : M world (gmap pystr pyval) :=
  l ← config_ref; deref l.

(** Modelled from the spec: [PluginBase.get_config_value(key, default)]
    is defined in [plugin_base.py], which is not among the sources. The
    specification describes the configuration as a mapping with
    recognized keys and per-key defaults ([sample_rate] default 16000,
    [use_words] default true) retained by the instance: the value of
    the key in the retained mapping, the default when it is absent. *)
Definition get_config_value (key : pystr) (default : pyval) : M world pyval :=
  d ← config_dict;
  mret (dict_get d key default).

(** [self._config[key] = v]: a write to the dictionary the reference
    points to. *)
Definition config_setitem (key : pystr) (v : pyval) : M world unit :=
  l ← config_ref;
  set_store (alter (insert key v) l).

(** A method call on [self.recognizer]. *)
Definition on_recognizer {A} (op : KaldiRecognizer -> res A * KaldiRecognizer)
  : M world A := fun w =>
  match recognizer (self w) with
  | Some r =>
      let '(a, r') := op r in
      (a, upd_self (with_recognizer (Some r')) w)
  | None => (Raise AttributeError, w)
  end.

Variable fs : filesystem.

(** Five [os.path.dirname] around [os.path.abspath(__file__)]. *)
Definition project_root : pystr :=
  dirname (dirname (dirname (dirname (dirname (module_abspath fs))))).

(** The path written into the source at line 196. *)
Definition hardcoded_model_path : pystr :=
  py "C:\Users\crige\models\asr\vosk\vosk-model-small-en-us-0.15".

(** [os.path.join(os.getcwd(), "models", "asr", "vosk", ...)], line 161 *)
Definition mock_placeholder_path : pystr :=
  join (join (join (join (cwd fs) (py "models")) (py "asr")) (py "vosk"))
       (py "vosk-model-small-en-us-0.15").

(** [setup], lines 244-285: load the model, create the recognizer. *)
Definition setup_load (model_path : pystr) (mock_mode : pyval) : M world bool :=
  loaded ← try_except
    (m ← lift (new_Model model_path);
     set_self (with_model (Some m));;
     mret true)
    (fun _ =>
       if truthy mock_mode then
         m ← lift (new_Model (py "mock_model_path"));
         set_self (with_model (Some m));;
         mret true
       else
         log (EvError ModelLoadFailed);;
         mret false);
  if negb loaded then mret false
  else
    created ← try_except
      (w ← get;
       r ← lift (new_KaldiRecognizer (model (self w)) (sample_rate (self w)));
       set_self (with_recognizer (Some r));;
       on_recognizer (SetWords (use_words (self w)));;
       mret true)
      (fun _ =>
         if truthy mock_mode then
           w ← get;
           r ← lift (new_KaldiRecognizer (model (self w)) (sample_rate (self w)));
           set_self (with_recognizer (Some r));;
           mret true
         else
           log (EvError RecognizerCreationFailed);;
           mret false);
    if negb created then mret false
    else
      set_self (with_engine_type (py "vosk_small"));;
      mret true.

(** [setup], lines 175-242: the path does not exist and the plugin is
    not in mock mode. *)
Definition setup_missing (model_path : pystr) (mock_mode : pyval) : M world bool :=
  if negb (isabs model_path) then
    let abs_path := join project_root model_path in
    if path_exists fs abs_path then
      config_setitem (py "path") (VStr abs_path);;
      setup_load abs_path mock_mode
    else
      let config_path := hardcoded_model_path in
      if path_exists fs config_path then
        config_setitem (py "path") (VStr config_path);;
        setup_load config_path mock_mode
      else
        log (EvError ModelPathMissing);;
        (* lines 209-231 only list directories for the log *)
        if negb (truthy mock_mode) then mret false
        else setup_load model_path mock_mode
  else
    log (EvError ModelPathMissing);;
    if negb (truthy mock_mode) then mret false
    else setup_load model_path mock_mode.

(** [setup], lines 165-242 *)
Definition setup_check (model_path : pyval) (mock_mode : pyval) : M world bool :=
  sr ← get_config_value (py "sample_rate") (VInt 16000);
  set_self (with_sample_rate sr);;
  uw ← get_config_value (py "use_words") (VBool true);
  set_self (with_use_words uw);;
  match model_path with
  | VStr p =>
      if negb (path_exists fs p) && negb (truthy mock_mode)
      then setup_missing p mock_mode
      else setup_load p mock_mode
  | _ => raise TypeError      (* os.path.isabs(model_path), line 171 *)
  end.

(** The [try] block of [setup]. *)
Definition setup_body : M world bool :=
  config_ref;;                                     (* line 144 *)
  model_path ← get_config_value (py "path") VNone;
  mock_mode ← get_config_value (py "mock_mode") (VBool false);
  if negb (truthy model_path) then
    log (EvError ConfigPathMissing);;
    if negb (truthy mock_mode) then mret false
    else
      let model_path := mock_placeholder_path in
      config_setitem (py "path") (VStr model_path);;
      setup_check (VStr model_path) mock_mode
  else setup_check model_path mock_mode.

Definition setup : M world bool :=
  try_except setup_body
    (fun _ => log (EvError SetupFailed);; mret false).

Definition initialize (config : loc) : M world bool :=
  try_except
    (set_self (with_config (Some config));;
     ok ← setup;
     if negb ok then
       log (EvError InitializationFailed);;
       mret false
     else
       set_self (with_initialized true);;
       mret true)
    (fun _ => log (EvError InitializationFailed);; mret false).

Definition teardown : M world bool :=
  try_except
    (set_self (with_model None);;
     set_self (with_recognizer None);;
     mret true)
    (fun _ => mret false).

Definition validate_files : M world bool :=
  try_except
    (w ← get;
     (if negb (truthy (model_dir (self w))) then
        v ← get_config_value (py "path") VNone;
        set_self (with_model_dir v)
      else mret tt);;
     w ← get;
     let root := model_dir (self w) in
     found ← (if negb (truthy root) then mret false
              else lift (exists_val fs root));
     if negb found then
       log (EvError ModelPathMissing);;
       mret false
     else
       am_dir ← lift (join_val root (py "am"));
       if negb (path_exists fs am_dir) || negb (path_isdir fs am_dir) then
         log (EvError AmDirMissing);;
         mret false
       else
         let final_mdl := join am_dir (py "final.mdl") in
         if negb (path_exists fs final_mdl) then
           log (EvError FinalMdlMissing);;
           mret false
         else mret true)
    (fun _ => log (EvError ValidationFailed);; mret false).

Definition load_model (model_path : pyval) : M world bool :=
  try_except
    (w ← get;
     let current_config := fresh (dom (store w)) in
     match _config (self w) with
     | Some l =>
         d ← deref l;
         set_store (insert current_config d);;      (* self._config.copy() *)
         config_setitem (py "path") model_path;;
         teardown;;
         success ← setup;
         (if negb success
          then set_self (with_config (Some current_config))
          else mret tt);;
         mret success
     | None =>
         set_store (insert current_config ∅);;      (* {} *)
         teardown;;
         success ← setup;
         mret success
     end)
    (fun _ => log (EvError LoadModelFailed);; mret false).

(** [wave.open(file_path, "rb")] *)
Definition wave_open (file_path : pystr) : res wave_file :=
  match entries fs !! file_path with
  | Some (File (Some wf)) => Ok wf
  | _ => Raise WaveError
  end.

(** [if "text" in result and result["text"]: results.append(...)] *)
Definition append_text (result : gmap pystr pyval) (results : list pyval)
  : list pyval :=
  match result !! py "text" with
  | Some v => if truthy v then results ++ [v] else results
  | None => results
  end.

(** The [while True] loop of [transcribe_file] on the frames not yet
    read. Every round that does not leave the loop consumes frames, so
    [S (length rem)] rounds are always enough ([fuel]). *)
Fixpoint stream (fuel : nat) (rem : list Z) (results : list pyval)
  : M world (list pyval) :=
  match fuel with
  | O => mret results
  | S fuel' =>
      let data := take 4000%nat rem in          (* wf.readframes(4000) *)
      log (EvReadFrames data);;
      match data with
      | [] => mret results
      | _ :: _ =>
          accepted ← on_recognizer (AcceptWaveform data);
          results' ← (if accepted : bool then
                        result ← on_recognizer Result;
                        mret (append_text result results)
                      else mret results);
          stream fuel' (drop 4000%nat rem) results'
      end
  end.

(** [sep.join(items)] *)
Fixpoint str_join (sep : pystr) (items : list pyval) : res pystr :=
  match items with
  | [] => Ok []
  | VStr s :: items' =>
      match items' with
      | [] => Ok s
      | _ :: _ =>
          match str_join sep items' with
          | Ok r => Ok (s ++ sep ++ r)
          | Raise e => Raise e
          end
      end
  | _ :: _ => Raise TypeError
  end.

Definition terminal_marks : pystr := py ".?!,;:-".

(** Lines 511-520 *)
Definition format_transcript (transcript : pystr) : res (option pystr) :=
  match transcript with
  | [] => Ok None
  | c :: rest =>
      let transcript := upper c ++ rest in
      match last transcript with
      | Some z =>
          if bool_decide (z ∈ terminal_marks) then Ok (Some transcript)
          else Ok (Some (transcript ++ py "."))
      | None => Raise IndexError               (* transcript[-1] *)
      end
  end.

(** Lines 485-508: reset, stream the file, collect and join the texts. *)
Definition collect (wf : wave_file) : M world pystr :=
  on_recognizer Reset;;
  results ← stream (S (length (frames wf))) (frames wf) [];
  final_result ← on_recognizer FinalResult;
  lift (str_join (py " ") (append_text final_result results)).

Definition transcribe_file (file_path : pystr) : M world (option pystr) :=
  try_except
    (w ← get;
     match recognizer (self w) with
     | None =>
         log (EvError RecognizerNotInitialized);;
         mret None
     | Some _ =>
         if negb (path_exists fs file_path) then
           log (EvError FileNotFound);;
           mret None
         else
           wf ← lift (wave_open file_path);
           if negb (nchannels wf =? 1) || negb (sampwidth wf =? 2)
              || negb (bool_decide (comptype wf = py "NONE")) then
             log (EvError UnsupportedFormat);;
             mret None
           else
             transcript ← collect wf;
             lift (format_transcript transcript)
     end)
    (fun _ => log (EvError TranscribeFailed);; mret None).


(** *** Notions used to state the properties *)

(** The mapping the instance retains. *)
Definition retained (w : world) : option (gmap pystr pyval) :=
  match _config (self w) with Some l => store w !! l | None => None end.

(** What the holder of reference [l] reads under [key]. *)
Definition config_item (w : world) (l : loc) (key : pystr) : option pyval :=
  match store w !! l with Some d => d !! key | None => None end.

(** The path [setup] puts in the place of a missing one (lines
    179-205); [None] when it gives up. *)
Definition fallback_path (p : pystr) : option pystr :=
  if isabs p then None
  else if path_exists fs (join project_root p) then Some (join project_root p)
  else if path_exists fs hardcoded_model_path then Some hardcoded_model_path
  else None.

(** The path a plugin that is not in mock mode loads its model from. *)
Definition resolve_model_path (p : pystr) : option pystr :=
  if path_exists fs p then Some p else fallback_path p.




Definition same_store (w w' : world) : Prop := store w' = store w.

Definition upto_path (d d' : gmap pystr pyval) : Prop :=
  forall k, k ≠ py "path" -> d' !! k = d !! k.

(** From [w] to [w'] the instance still retains [l], no other
    dictionary has changed, and the one at [l] at most at "path". *)
Definition config_frame (l : loc) (w w' : world) : Prop :=
  _config (self w) = Some l ->
  _config (self w') = Some l
  /\ (forall l', l' ≠ l -> store w' !! l' = store w !! l')
  /\ match store w !! l, store w' !! l with
     | Some d, Some d' => upto_path d d'
     | None, None => True
     | _, _ => False
     end.

Definition same_model (w w' : world) : Prop := model (self w') = model (self w).

Definition same_engine (w w' : world) : Prop :=
  recognizer (self w') = recognizer (self w) /\ model (self w') = model (self w).

(** [root] is the model root [validate_files] checks: [self.model_dir]
    once it is set, else the configured "path". *)
Definition model_root (w : world) (root : pystr) : Prop :=
  root ≠ []
  /\ (model_dir (self w) = VStr root
      \/ (truthy (model_dir (self w)) = false
          /\ exists d, retained w = Some d
                     /\ dict_get d (py "path") VNone = VStr root)).

Definition unsupported (wf : wave_file) : Prop :=
  nchannels wf ≠ 1 \/ sampwidth wf ≠ 2 \/ comptype wf ≠ py "NONE".

(** The error [transcribe_file] reports for a file it does not accept. *)
Definition rejection (file_path : pystr) (w : world) : error_kind :=
  match recognizer (self w) with
  | None => RecognizerNotInitialized
  | Some _ =>
      if negb (path_exists fs file_path) then FileNotFound
      else match wave_open file_path with
           | Ok _ => UnsupportedFormat
           | Raise _ => TranscribeFailed
           end
  end.


(** [Reset] discards whatever the recognizer has heard: resetting after
    any other call is resetting before it. *)
Definition reset_forgets : Prop :=
  (forall data r, Reset (AcceptWaveform data r).2 = Reset r)
  /\ (forall r, Reset (Result r).2 = Reset r)
  /\ (forall r, Reset (FinalResult r).2 = Reset r)
  /\ (forall r, Reset (Reset r).2 = Reset r).

Definition same_recognizer (w1 w2 : world) : Prop :=
  recognizer (self w1) = recognizer (self w2).

(** The outcome of [c] and the recognizer it leaves depend on the
    recognizer only. *)
Definition rec_det {A} (c : M world A) : Prop :=
  forall w1 w2, same_recognizer w1 w2 ->
    (c w1).1 = (c w2).1 /\ same_recognizer (c w1).2 (c w2).2.

(** Two worlds whose recognizers are the same once reset. *)
Definition reset_equiv (w1 w2 : world) : Prop :=
  match recognizer (self w1), recognizer (self w2) with
  | Some r1, Some r2 => Reset r1 = Reset r2
  | None, None => True
  | _, _ => False
  end.

(** *** The other methods of the class *)

Context {et : ExnText}.

Definition get_id : pystr := py "vosk_small".
Definition get_name : pystr := py "Vosk Small Model".
Definition get_version : pystr := py "1.0.0".
Definition get_author : pystr := py "RealtimeTrans Team".
Definition supported_models : list pystr := [py "vosk_small"].

(** "Vosk识别器未初始化" *)
Definition not_initialized_text : pystr :=
  [86; 111; 115; 107; 35782; 21035; 22120; 26410; 21021; 22987; 21270]%N.

(** A method call on a recognizer held in a local variable. *)
Definition call_local {A} (op : KaldiRecognizer -> res A * KaldiRecognizer)
    (r : KaldiRecognizer) : M world KaldiRecognizer := fun w =>
  match op r with
  | (Ok _, r') => (Ok r', w)
  | (Raise e, _) => (Raise e, w)
  end.

(** [create_recognizer]. Of the reports of this method and of
    [process_audio] and [transcribe], [error_kind] has only the one that
    [transcribe_file] shares ("Vosk识别器未初始化"); the others are not
    recorded in the trace. *)
Definition create_recognizer : M world (option KaldiRecognizer) :=
  try_except
    (w ← get;
     match model (self w) with
     | None => mret None
     | Some _ =>
         r ← lift (new_KaldiRecognizer (model (self w)) (sample_rate (self w)));
         r' ← call_local (SetWords (use_words (self w))) r;
         mret (Some r')
     end)
    (fun _ => mret None).

Definition process_audio (audio_data : list Z) : M world (gmap pystr pyval) :=
  try_except
    (w ← get;
     match recognizer (self w) with
     | None =>
         log (EvError RecognizerNotInitialized);;
         mret {[ py "error" := VStr not_initialized_text ]}
     | Some _ =>
         accepted ← on_recognizer (AcceptWaveform audio_data);
         if accepted : bool then
           result ← on_recognizer Result;
           mret {[ py "text" := dict_get result (py "text") (VStr []) ]}
         else
           result ← on_recognizer PartialResult;
           mret (<[ py "text" := dict_get result (py "partial") (VStr []) ]>
                   {[ py "is_partial" := VBool true ]})
     end)
    (fun e => mret {[ py "error" := VStr (exn_str e) ]}).

Definition transcribe (audio_data : list Z) : M world (option pyval) :=
  try_except
    (result ← process_audio audio_data;
     if bool_decide (is_Some (result !! py "error")) then mret None
     else mret (Some (dict_get result (py "text") (VStr []))))
    (fun _ => mret None).

(** [get_model_info]: no [try] here. *)
Definition get_model_info : M world (gmap pystr pyval) :=
  w ← get;
  path ← (if truthy (model_dir (self w)) then mret (model_dir (self w))
          else get_config_value (py "path") VNone);
  mret (<[ py "name" := VStr get_name ]>
        (<[ py "version" := VStr get_version ]>
         (<[ py "type" := VStr (py "vosk_small") ]>
          (<[ py "engine" := VStr (engine_type (self w)) ]>
           (<[ py "path" := path ]>
            {[ py "language" := VStr (py "en") ]}))))).

(** *** Notions used to state further properties *)

(** The plugin is active: model and recognizer are both there. *)
Definition active (w : world) : Prop :=
  is_Some (model (self w)) /\ is_Some (recognizer (self w)).

(** The plugin is idle: neither is. *)
Definition idle (w : world) : Prop :=
  model (self w) = None /\ recognizer (self w) = None.

(** [c], when it answers [a] without raising, leaves a state with [Q a]. *)
Definition ensures {A} (c : M world A) (Q : A -> world -> Prop) : Prop :=
  forall w, match c w with
            | (Ok a, w') => Q a w'
            | (Raise _, _) => True
            end.

(** From [w] to [w'] only the recognizer and the trace may differ. *)
Definition same_but_recognizer (w w' : world) : Prop :=
  store w' = store w
  /\ _config (self w') = _config (self w)
  /\ _initialized (self w') = _initialized (self w)
  /\ model (self w') = model (self w)
  /\ sample_rate (self w') = sample_rate (self w)
  /\ use_words (self w') = use_words (self w)
  /\ engine_type (self w') = engine_type (self w)
  /\ model_dir (self w') = model_dir (self w).

Definition same_model_dir (w w' : world) : Prop :=
  model_dir (self w') = model_dir (self w).

(** What a [True] from [setup] stands for. *)
Definition loaded (b : bool) (w : world) : Prop :=
  b = true -> active w /\ engine_type (self w) = py "vosk_small".

(** A transcript, when there is one, ends with a terminal mark. *)
Definition marked (o : option pystr) (w : world) : Prop :=
  forall t, o = Some t -> exists c, last t = Some c /\ c ∈ terminal_marks.

(** The state in which [load_model] calls [setup]. *)
Definition reloading (model_path : pyval) (l : loc) (d : gmap pystr pyval)
    (w : world) : world :=
  upd_self (with_recognizer None)
    (upd_self (with_model None)
       (upd_store (alter (insert (py "path") model_path) l)
          (upd_store (insert (fresh (dom (store w))) d) w))).


End Plugin.
End Vosk.

(* ===================================================================== *)
(** ** Concrete environments *)
(* ===================================================================== *)

Section Examples.
Import Vosk.
#[local] Existing Instances posix vosk_lib ascii_upper.

Definition mono (fr : list Z) : wave_file :=
  {| nchannels := 1; sampwidth := 2; comptype := py "NONE"; frames := fr |}.

(** A machine where the sources live under /srv/app, a Vosk model under
    /opt/model, a sherpa model under /opt/sherpa, and the working
    directory holds two recordings. *)
Definition demo_fs : filesystem := {|
  entries := list_to_map [
    (py "/srv/app/src/models/vosk", Dir);
    (py "/opt/model", Dir);
    (py "/opt/model/am", Dir);
    (py "/opt/model/am/final.mdl", File None);
    (py "/opt/sherpa", Dir);
    (py "/opt/sherpa/encoder.onnx", File None);
    (py "/opt/sherpa/decoder.onnx", File None);
    (py "/opt/sherpa/joiner.onnx", File None);
    (py "/opt/sherpa/tokens.txt", File None);
    (py "speech.wav", File (Some (mono [12; -7; 3])));
    (py "stereo.wav",
     File (Some {| nchannels := 2; sampwidth := 2; comptype := py "NONE";
                   frames := [5; 5] |})) ];
  open_fds := {[ 0; 1; 2 ]};
  cwd := py "/home/user";
  module_abspath := py "/srv/app/src/core/plugins/asr/vosk_plugin/vosk_plugin.py"
|}.

(** The same machine with a recording of 8001 frames. *)
Definition long_fs : filesystem := {|
  entries := {[ py "long.wav" :=
                  File (Some (mono (replicate 4000 0 ++ replicate 4000 1 ++ [2]))) ]};
  open_fds := {[ 0; 1; 2 ]};
  cwd := py "/home/user";
  module_abspath := py "/srv/app/src/core/plugins/asr/vosk_plugin/vosk_plugin.py"
|}.

(** A caller's configuration with a relative model path. *)
Definition relative_config : gmap pystr pyval :=
  {[ py "path" := VStr (py "models/vosk");
     py "sample_rate" := VInt 16000;
     py "use_words" := VBool true ]}.

Definition model_config : gmap pystr pyval :=
  {[ py "path" := VStr (py "/opt/model") ]}.

Definition missing_config : gmap pystr pyval :=
  {[ py "path" := VStr (py "/nowhere/model") ]}.

(** A new plugin, and the caller's three dictionaries at references 1-3. *)
Definition demo_world : world := {|
  store := {[ 1%positive := relative_config;
              2%positive := model_config;
              3%positive := missing_config ]};
  self := new_plugin;
  trace := []
|}.

(** The plugin after [initialize] with the configuration at reference 2. *)
Definition ready_world : world := (initialize demo_fs 2%positive demo_world).2.

(** [str(e)]: the name of the exception class stands for its text. *)
Definition exn_names : ExnText := {|
  exn_str := fun e =>
    match e with
    | TypeError => py "TypeError"
    | AttributeError => py "AttributeError"
    | IndexError => py "IndexError"
    | WaveError => py "wave.Error"
    | OverflowError => py "OverflowError"
    | EngineError _ => py "vosk error"
    end
|}.

(** A caller that asks for mock mode and configures no path. *)
Definition mock_config : gmap pystr pyval :=
  {[ py "mock_mode" := VBool true ]}.

Definition mock_world : world :=
  upd_store (insert 4%positive mock_config) demo_world.

(** The plugin once [validate_files] has cached its model root. *)
Definition checked_world : world := (validate_files demo_fs ready_world).2.

End Examples.

Section ConfigExamples.
Import ConfigManager.

(** The root dict of a configuration as [load_config] leaves it. *)
Definition demo_config : gmap pystr pyobj :=
  {[ py "app" := ORef 2;
     py "asr" := ORef 3;
     py "models" := ORef 6;
     py "ui" := ORef 9 ]}.

(** Its dicts, each one an object of its own, and three dicts of a
    caller: a model, a window and a plugin configuration. *)
Definition demo_objects : heap :=
  {[ 1%positive := demo_config;
     2%positive := {[ py "name" := OStr (py "asr-rtm") ]};
     3%positive := {[ py "models" := ORef 4 ]};
     4%positive := {[ py "vosk_small" := ORef 5 ]};
     5%positive := {[ py "path" := OStr (py "/opt/model") ]};
     6%positive := {[ py "asr" := ORef 7 ]};
     7%positive := {[ py "sherpa" := ORef 8 ]};
     8%positive := {[ py "path" := OStr (py "/opt/sherpa") ]};
     9%positive := {[ py "theme" := OStr (py "dark") ]};
     10%positive := {[ py "path" := OStr (py "/opt/large") ]};
     11%positive := {[ py "width" := OInt 800 ]};
     12%positive := {[ py "enabled" := OBool true ]} ]}.

Definition demo_manager : t := {| objects := demo_objects; _config := ORef 1 |}.

(** A manager whose root dict holds itself under "a": the state after
    [cm.set_config(cm.config, "a")] on a new manager. *)
Definition looped_manager : t := (set_config init (ORef 1) [py "a"]).2.

(** A manager where "alias" and "asr" hold the same dict: the state after
    [cm.set_config(cm.get_config("asr"), "alias")]. *)
Definition shared_manager : t :=
  (set_config demo_manager (get_config demo_manager [py "asr"] ONone)
     [py "alias"]).2.

(** An interpreter that follows dicts 64 deep. *)
Definition json_lib : JsonLib := {| max_depth := 64 |}.

(** An empty disk, and one where the plugins file cannot be written. *)
Definition demo_disk : disk := {| json_files := ∅; read_only := ∅ |}.

Definition locked_disk : disk :=
  {| json_files := ∅; read_only := {[ _plugins_path (default_paths (H := posix)) ]} |}.

End ConfigExamples.

(* ===================================================================== *)
(** * Properties of [ConfigManager] *)
(* ===================================================================== *)

Section ConfigManagerFacts.
Import ConfigManager.

Lemma split_dot_nonempty (s : pystr) : split_dot s ≠ [].
Proof.
  destruct s as [|c s]; simpl; [done|].
  destruct (c =? 46)%N; [done|].
  destruct (split_dot s); done.
Qed.

Lemma split_keys_nonempty (keys : list pystr) :
  keys ≠ [] -> split_keys keys ≠ [].
Proof.
  destruct keys as [|k [|k' keys]]; simpl; try done.
  intros _. destruct (has_dot k); [apply split_dot_nonempty | done].
Qed.

(** ** Following and assigning entries *)

Lemma subdict_Some (h : heap) (c : ref) (k : pystr) (r : ref) :
  subdict h c k = Some r <->
  exists d, h !! c = Some d /\ d !! k = Some (ORef r) /\ is_Some (h !! r).
Proof.
  unfold subdict. split.
  - destruct (h !! c) as [d|]; [|done].
    destruct (d !! k) as [[| | | |r']|] eqn:Hk; try done.
    destruct (bool_decide (is_Some (h !! r'))) eqn:E; [|done].
    intros [= <-]. apply bool_decide_eq_true in E. by exists d.
  - intros (d & -> & -> & Hr). by rewrite bool_decide_eq_true_2.
Qed.

Lemma subdict_is_Some (h : heap) (c : ref) (k : pystr) (r : ref) :
  subdict h c k = Some r -> is_Some (h !! r).
Proof. intros (d & _ & _ & Hr)%subdict_Some. exact Hr. Qed.

Lemma subdict_empty (h : heap) (c : ref) (k : pystr) :
  h !! c = Some ∅ -> subdict h c k = None.
Proof. intros Hc. unfold subdict. by rewrite Hc, lookup_empty. Qed.

Lemma fresh_not_in (h : heap) (r : ref) :
  is_Some (h !! r) -> r ≠ fresh (dom h).
Proof.
  intros Hr ->. apply (is_fresh (dom h)). by apply elem_of_dom.
Qed.

(** From a dict that has just been made, every assignment is to a dict
    that has just been made. *)
Lemma written_empty (h : heap) (c : ref) (init : list pystr) (lastk : pystr) :
  h !! c = Some ∅ -> (written h c init lastk).1 = c.
Proof.
  intros Hc. destruct init as [|k init]; [done|].
  cbn [written]. by rewrite subdict_empty.
Qed.

Lemma followed_empty (h : heap) (c : ref) (init : list pystr) :
  h !! c = Some ∅ -> followed h c init = [].
Proof.
  intros Hc. destruct init as [|k init]; [done|].
  cbn [followed]. by rewrite subdict_empty.
Qed.

(** [config[key] = {}] on the heap. *)
Lemma make_subdict_lookup (h : heap) (c : ref) (key : pystr) (r : ref)
    (d : gmap pystr pyobj) :
  h !! r = Some d ->
  exists d1,
    (<[fresh (dom h) := ∅]> (alter (insert key (ORef (fresh (dom h)))) c h)) !! r
    = Some d1
    /\ (forall k, (r, k) ≠ (c, key) -> d1 !! k = d !! k)
    /\ (r = c -> d1 !! key = Some (ORef (fresh (dom h)))).
Proof.
  intros Hr.
  assert (Hne : r ≠ fresh (dom h)) by (apply fresh_not_in; eauto).
  rewrite lookup_insert_ne by done.
  destruct (decide (r = c)) as [->|Hrc].
  - rewrite lookup_alter_eq, Hr. cbn. eexists. split; [done|]. split.
    + intros k Hk. rewrite lookup_insert_ne; [done|]. congruence.
    + intros _. apply lookup_insert_eq.
  - rewrite lookup_alter_ne by done. rewrite Hr. eexists. split; [done|].
    split; [done|]. done.
Qed.

(** [store_path] leaves every entry of the dicts that were there as it
    was, but the one it assigns. *)
Lemma store_path_keeps (lastk : pystr) (value : pyobj) (init : list pystr) :
  forall (h : heap) (c : ref),
    is_Some (h !! c) ->
    forall (r : ref) (d : gmap pystr pyobj),
      h !! r = Some d ->
      exists d', store_path h c init lastk value !! r = Some d'
                 /\ forall k, (r, k) ≠ written h c init lastk -> d' !! k = d !! k.
Proof.
  induction init as [|key init IH]; intros h c Hc r d Hr; cbn [store_path written].
  - destruct (decide (r = c)) as [->|Hrc].
    + rewrite lookup_alter_eq, Hr. cbn. eexists. split; [done|].
      intros k Hk. rewrite lookup_insert_ne; [done|]. congruence.
    + rewrite lookup_alter_ne by done. eauto.
  - destruct (subdict h c key) as [r0|] eqn:Hsub.
    + apply IH; [by eapply subdict_is_Some|done].
    + destruct (make_subdict_lookup h c key r d Hr) as (d1 & Hd1 & Hsame & _).
      set (h1 := <[fresh (dom h) := ∅]> _) in *.
      assert (H0 : h1 !! fresh (dom h) = Some ∅) by apply lookup_insert_eq.
      destruct (IH h1 (fresh (dom h)) (mk_is_Some _ _ H0) r d1 Hd1)
        as (d' & Hd' & Hkeep).
      exists d'. split; [done|]. intros k Hk.
      rewrite Hkeep; [by apply Hsame|].
      intros Heq. apply (f_equal fst) in Heq.
      rewrite (written_empty h1 _ _ _ H0) in Heq. cbn in Heq.
      by apply (fresh_not_in h r); eauto.
Qed.

(** No entry is ever removed. *)
Lemma store_path_entry (lastk : pystr) (value : pyobj) (init : list pystr) :
  forall (h : heap) (c : ref) (r : ref) (d : gmap pystr pyobj) (k : pystr),
    h !! r = Some d -> is_Some (d !! k) ->
    exists d', store_path h c init lastk value !! r = Some d'
               /\ is_Some (d' !! k).
Proof.
  induction init as [|key init IH]; intros h c r d k Hr Hk; cbn [store_path].
  - destruct (decide (r = c)) as [->|Hrc].
    + rewrite lookup_alter_eq, Hr. cbn. eexists. split; [done|].
      destruct (decide (k = lastk)) as [->|Hne].
      * rewrite lookup_insert_eq. eauto.
      * by rewrite lookup_insert_ne.
    + rewrite lookup_alter_ne by done. eauto.
  - destruct (subdict h c key) as [r0|] eqn:Hsub; [by eapply IH|].
    destruct (make_subdict_lookup h c key r d Hr) as (d1 & Hd1 & Hsame & Hnew).
    eapply IH; [exact Hd1|].
    destruct (decide ((r, k) = (c, key))) as [[= -> ->]|Hne].
    + rewrite Hnew by done. eauto.
    + by rewrite Hsame.
Qed.

Lemma store_path_is_Some (lastk : pystr) (value : pyobj) (init : list pystr)
    (h : heap) (c r : ref) :
  is_Some (h !! r) -> is_Some (store_path h c init lastk value !! r).
Proof.
  intros [d Hd].
  destruct init as [|key init]; cbn [store_path].
  - destruct (decide (r = c)) as [->|Hrc].
    + rewrite lookup_alter_eq, Hd. by eexists.
    + rewrite lookup_alter_ne by done. eauto.
  - revert h c d Hd key. induction init as [|k2 init IH]; intros h c d Hd key.
    + destruct (subdict h c key) as [r0|]; cbn [store_path].
      * destruct (decide (r = r0)) as [->|Hrc].
        -- rewrite lookup_alter_eq, Hd. by eexists.
        -- rewrite lookup_alter_ne by done. eauto.
      * destruct (make_subdict_lookup h c key r d Hd) as (d1 & Hd1 & _).
        destruct (decide (r = fresh (dom h))) as [->|Hrc].
        -- rewrite lookup_alter_eq, Hd1. by eexists.
        -- rewrite lookup_alter_ne by done. eauto.
    + destruct (subdict h c key) as [r0|].
      * cbn [store_path] in *. by eapply IH.
      * destruct (make_subdict_lookup h c key r d Hd) as (d1 & Hd1 & _).
        cbn [store_path] in *. by eapply IH.
Qed.

(** The entries followed hold dicts, under keys of the path. *)
Lemma followed_spec (h : heap) (init : list pystr) :
  forall (c : ref) (e : ref * pystr),
    e ∈ followed h c init -> is_Some (subdict h e.1 e.2) /\ e.2 ∈ init.
Proof.
  induction init as [|key init IH]; intros c e; cbn [followed].
  - by intros ?%elem_of_nil.
  - destruct (subdict h c key) as [r|] eqn:Hsub; [|by intros ?%elem_of_nil].
    intros [->|He]%elem_of_cons.
    + cbn. rewrite Hsub. split; [eauto|]. apply list_elem_of_here.
    + destruct (IH r e He) as [? ?]. split; [done|]. by apply list_elem_of_further.
Qed.

(** The entry assigned holds no dict, or is under the last key. *)
Lemma written_spec (h : heap) (lastk : pystr) (init : list pystr) :
  forall c : ref,
    subdict h (written h c init lastk).1 (written h c init lastk).2 = None
    \/ (written h c init lastk).2 = lastk.
Proof.
  induction init as [|key init IH]; intros c; cbn [written].
  - by right.
  - destruct (subdict h c key) as [r|] eqn:Hsub; [apply IH|]. left. exact Hsub.
Qed.

(** A last key that is none of the earlier keys is off the path. *)
Lemma written_not_followed (h : heap) (c : ref) (init : list pystr)
    (lastk : pystr) :
  lastk ∉ init -> written h c init lastk ∉ followed h c init.
Proof.
  intros Hlast Hin. destruct (followed_spec h init c _ Hin) as [[r Hr] Hk].
  destruct (written_spec h lastk init c) as [Hnone | Heq].
  - by rewrite Hnone in Hr.
  - apply Hlast. by rewrite <- Heq.
Qed.

(** [lookup_path] gives the value at the end of the path, the default
    when a key is missing. *)
Lemma lookup_path_find (h : heap) (default : pyobj) (keys : list pystr) :
  forall v : pyobj,
    lookup_path h v keys default
    = match find_path h v keys with Some x => x | None => default end.
Proof.
  induction keys as [|key keys IH]; intros v; cbn [lookup_path find_path]; [done|].
  destruct (deref h v) as [d|]; [|done].
  destruct (d !! key) as [v'|]; [apply IH|done].
Qed.

(** Reading back along the path that [store_path] has just written. *)
Lemma find_store_path (lastk : pystr) (value : pyobj) (init : list pystr) :
  forall (h : heap) (c : ref),
    is_Some (h !! c) ->
    written h c init lastk ∉ followed h c init ->
    find_path (store_path h c init lastk value) (ORef c) (init ++ [lastk])
    = Some value.
Proof.
  induction init as [|key init IH]; intros h c [d Hc] Hoff;
    cbn [store_path written followed app find_path deref] in *.
  - rewrite lookup_alter_eq, Hc. cbn. by rewrite lookup_insert_eq.
  - destruct (subdict h c key) as [r|] eqn:Hsub.
    + apply not_elem_of_cons in Hoff as [Hne Hoff].
      apply subdict_Some in Hsub as (d0 & Hd0 & Hkey & Hr).
      assert (d0 = d) as -> by congruence.
      destruct (store_path_keeps lastk value init h r Hr c d Hc)
        as (d' & Hd' & Hkeep).
      rewrite Hd', Hkeep, Hkey by (intros Heq; by apply Hne).
      by apply IH.
    + destruct (make_subdict_lookup h c key c d Hc) as (d1 & Hd1 & _ & Hnew).
      set (h1 := <[fresh (dom h) := ∅]> _) in *.
      assert (H0 : h1 !! fresh (dom h) = Some ∅) by apply lookup_insert_eq.
      destruct (store_path_keeps lastk value init h1 (fresh (dom h))
                  (mk_is_Some _ _ H0) c d1 Hd1) as (d' & Hd' & Hkeep).
      rewrite Hd', Hkeep, Hnew; [|done|].
      * apply IH; [eauto|]. rewrite (followed_empty h1 _ _ H0). apply not_elem_of_nil.
      * intros Heq. apply (f_equal fst) in Heq.
        rewrite (written_empty h1 _ _ _ H0) in Heq. cbn in Heq.
        by apply (fresh_not_in h c); eauto.
Qed.

Lemma lookup_store_path (lastk : pystr) (value default : pyobj)
    (init : list pystr) (h : heap) (c : ref) :
  is_Some (h !! c) ->
  written h c init lastk ∉ followed h c init ->
  lookup_path (store_path h c init lastk value) (ORef c) (init ++ [lastk]) default
  = value.
Proof. intros Hc Hoff. by rewrite lookup_path_find, find_store_path. Qed.

Lemma keeps_but_store_path (h : heap) (c : ref) (init : list pystr)
    (lastk : pystr) (value : pyobj) :
  is_Some (h !! c) ->
  keeps_but (written h c init lastk) h (store_path h c init lastk value).
Proof. intros Hc r d Hr. by apply store_path_keeps. Qed.


Lemma keeps_but_refl (w : ref * pystr) (h : heap) : keeps_but w h h.
Proof. intros r d Hr. eauto. Qed.

(** What is found along entries that are not assigned is as before. *)
Lemma find_path_frame (h h' : heap) (w : ref * pystr) :
  keeps_but w h h' ->
  forall (keys : list pystr) (v : pyobj) (es : list (ref * pystr)),
    read_entries h v keys = Some es -> w ∉ es ->
    find_path h' v keys = find_path h v keys.
Proof.
  intros Hkeep. induction keys as [|key keys IH]; intros v es Hes Hw; [done|].
  cbn [find_path read_entries] in *.
  destruct v as [| | | |r]; try done. cbn [deref].
  destruct (h !! r) as [d|] eqn:Hr; [|done].
  destruct (Hkeep r d Hr) as (d' & -> & Hsame).
  destruct (d !! key) as [v|] eqn:Hk.
  - destruct (read_entries h v keys) as [es'|] eqn:Hes'; [|done].
    injection Hes as <-. apply not_elem_of_cons in Hw as [Hne Hw].
    rewrite Hsame, Hk by (intros Heq; by apply Hne).
    by eapply IH.
  - injection Hes as <-. apply not_elem_of_cons in Hw as [Hne _].
    by rewrite Hsame, Hk by (intros Heq; by apply Hne).
Qed.

Lemma lookup_path_frame (h h' : heap) (w : ref * pystr) (default : pyobj)
    (keys : list pystr) (v : pyobj) (es : list (ref * pystr)) :
  keeps_but w h h' ->
  read_entries h v keys = Some es -> w ∉ es ->
  lookup_path h' v keys default = lookup_path h v keys default.
Proof.
  intros Hk Hes Hw. by rewrite !lookup_path_find, (find_path_frame h h' w Hk keys v es).
Qed.

(** A path that is found meets no reference to no object. *)
Lemma find_path_read_entries (h : heap) (keys : list pystr) :
  forall (v x : pyobj),
    find_path h v keys = Some x -> is_Some (read_entries h v keys).
Proof.
  induction keys as [|key keys IH]; intros v x; cbn [find_path read_entries];
    [eauto|].
  destruct v as [| | | |r]; try done. cbn [deref].
  destruct (h !! r) as [d|]; [|done].
  destruct (d !! key) as [v'|]; [|done].
  intros Hf. destruct (IH _ _ Hf) as [es ->]. cbn. eauto.
Qed.

(** ** [set_config] and [get_config] *)

Lemma init_root_is_mapping : root_is_mapping init.
Proof. right. exists 1%positive. split; [done|]. by eexists. Qed.

Lemma set_config_run (self : t) (value : pyobj) (keys : list pystr) (r : ref) :
  _config self = ORef r -> is_Some (objects self !! r) -> keys ≠ [] ->
  set_config self value keys =
    (true, {| objects := store_path (objects self) r
                           (removelast (split_keys keys))
                           (List.last (split_keys keys) []) value;
              _config := ORef r |}).
Proof.
  intros Hroot [d Hd] Hne. unfold set_config.
  destruct keys as [|k keys]; [done|]. by rewrite Hroot, Hd.
Qed.

Lemma set_config_run_None (self : t) (value : pyobj) (keys : list pystr) :
  _config self = ONone -> keys ≠ [] ->
  set_config self value keys =
    (true, {| objects := store_path (<[fresh (dom (objects self)) := ∅]> (objects self))
                           (fresh (dom (objects self)))
                           (removelast (split_keys keys))
                           (List.last (split_keys keys) []) value;
              _config := ORef (fresh (dom (objects self))) |}).
Proof.
  intros Hroot Hne. unfold set_config.
  destruct keys as [|k keys]; [done|]. by rewrite Hroot.
Qed.

Lemma get_config_run (self : t) (keys : list pystr) (default : pyobj) :
  keys ≠ [] ->
  get_config self keys default
  = lookup_path (objects self) (_config self) (split_keys keys) default.
Proof. by destruct keys. Qed.

Lemma set_config_root_is_mapping (self : t) (value : pyobj) (keys : list pystr) :
  root_is_mapping self -> root_is_mapping (set_config self value keys).2.
Proof.
  intros Hroot. destruct keys as [|k keys]; [done|].
  destruct Hroot as [Hnone | (r & Hr & Hd)].
  - rewrite set_config_run_None by done. right. eexists. split; [done|].
    cbn [objects snd]. apply store_path_is_Some. rewrite lookup_insert_eq. eauto.
  - rewrite (set_config_run _ _ _ r) by done. right. eexists. split; [done|].
    cbn [objects snd]. by apply store_path_is_Some.
Qed.

(** When the root is neither [None] nor a dict and the path has more than
    one key, [set_config] answers [True] and leaves the root as it was. *)
Remark set_config_root_not_mapping (self : t) (value : pyobj) (k1 k2 : pystr)
    (keys : list pystr) :
  match _config self with ONone | ORef _ => False | _ => True end ->
  set_config self value (k1 :: k2 :: keys) = (true, self).
Proof.
  unfold set_config. simpl split_keys.
  destruct (_config self) eqn:E; try done; intros _;
    by destruct keys.
Qed.

(** The round trip, for a root that is a dict or still [None]. *)
Lemma store_then_lookup (self : t) (value default : pyobj) (keys : list pystr) :
  root_is_mapping self -> keys ≠ [] ->
  entry_off_path self keys ->
  get_config (set_config self value keys).2 keys default = value.
Proof.
  intros Hroot Hne Hoff.
  pose proof (split_keys_nonempty keys Hne) as Hks.
  rewrite get_config_run by done.
  destruct Hroot as [Hnone | (r & Hr & Hd)].
  - rewrite set_config_run_None by done. cbn [objects _config snd].
    rewrite (app_removelast_last (l := split_keys keys) [] Hks) at 3.
    apply lookup_store_path.
    + rewrite lookup_insert_eq. eauto.
    + rewrite followed_empty by apply lookup_insert_eq. apply not_elem_of_nil.
  - rewrite (set_config_run _ _ _ r) by done. cbn [objects _config snd].
    rewrite (app_removelast_last (l := split_keys keys) [] Hks) at 3.
    apply lookup_store_path; [done|].
    unfold entry_off_path in Hoff. by rewrite Hr in Hoff.
Qed.

(** A last key that is none of the earlier keys is always off the path. *)
Lemma entry_off_path_last_key (self : t) (keys : list pystr) :
  List.last (split_keys keys) [] ∉ removelast (split_keys keys) ->
  entry_off_path self keys.
Proof.
  intros Hlast. unfold entry_off_path. destruct (_config self); try done.
  by apply written_not_followed.
Qed.

End ConfigManagerFacts.

(** C8. For a model type of the sherpa family (one whose name starts with
    "sherpa"), [validate_model_files] answers true exactly when the model
    root exists and the four files encoder.onnx, decoder.onnx, joiner.onnx
    and tokens.txt exist directly under it. *)
Theorem validate_model_files_sherpa `{OsPath} (fs : filesystem)
    (model_path model_type : pystr) :
  startswith model_type (py "sherpa") = true ->
  ConfigManager.validate_model_files fs model_path model_type = true <->
    path_exists fs model_path = true
    /\ path_exists fs (join model_path (py "encoder.onnx")) = true
    /\ path_exists fs (join model_path (py "decoder.onnx")) = true
    /\ path_exists fs (join model_path (py "joiner.onnx")) = true
    /\ path_exists fs (join model_path (py "tokens.txt")) = true.
Proof.
  intros Hfam. unfold ConfigManager.validate_model_files.
  rewrite Hfam.
  destruct (path_exists fs model_path); simpl.
  - rewrite !andb_true_iff. intuition.
  - intuition discriminate.
Qed.

Lemma validate_model_files_sherpa_witness :
  ConfigManager.validate_model_files (H := posix) demo_fs
    (py "/opt/sherpa") (py "sherpa_onnx") = true.
Proof.
  apply (validate_model_files_sherpa (H := posix)); [reflexivity|].
  vm_compute. repeat split.
Defined.

(** C10. On a manager whose root configuration is a dict (or still
    [None]), when [set_config] with a value and a sequence of keys answers
    true and the entry it assigns is not one of the entries it follows to
    get there, the following [get_config] with the same keys gives back
    that value; both split a single dotted key the same way. *)
Theorem set_config_get_config (self : ConfigManager.t)
    (value default : ConfigManager.pyobj) (keys : list pystr) :
  ConfigManager.root_is_mapping self ->
  ConfigManager.entry_off_path self keys ->
  (ConfigManager.set_config self value keys).1 = true ->
  ConfigManager.get_config (ConfigManager.set_config self value keys).2 keys default
  = value.
Proof.
  intros Hroot Hoff Hset.
  destruct keys as [|k keys]; [discriminate|].
  pose proof (split_keys_nonempty (k :: keys) ltac:(done)) as Hks.
  rewrite get_config_run by done.
  destruct Hroot as [Hnone | (r & Hr & Hd)].
  - rewrite set_config_run_None by done. cbn [ConfigManager.objects ConfigManager._config snd].
    rewrite (app_removelast_last (l := ConfigManager.split_keys (k :: keys)) [] Hks) at 3.
    apply lookup_store_path.
    + rewrite lookup_insert_eq. eauto.
    + rewrite followed_empty by apply lookup_insert_eq. apply not_elem_of_nil.
  - rewrite (set_config_run _ _ _ r) by done. cbn [ConfigManager.objects ConfigManager._config snd].
    rewrite (app_removelast_last (l := ConfigManager.split_keys (k :: keys)) [] Hks) at 3.
    apply lookup_store_path; [done|].
    unfold ConfigManager.entry_off_path in Hoff. by rewrite Hr in Hoff.
Qed.

(* ===================================================================== *)
(** * Rules for [keeps] *)
(* ===================================================================== *)

Section KeepsRules.
Context {S : Type} (R : S -> S -> Prop) `{!Reflexive R} `{!Transitive R}.

Lemma keeps_ret {A} (a : A) : keeps R (mret a).
Proof. intros s. simpl. reflexivity. Qed.

Lemma keeps_lift {A} (r : res A) : keeps R (lift r).
Proof. intros s. simpl. reflexivity. Qed.

Lemma keeps_raise {A} (e : exn) : keeps R (raise (A:=A) e).
Proof. intros s. simpl. reflexivity. Qed.

Lemma keeps_get : keeps R get.
Proof. intros s. simpl. reflexivity. Qed.

Lemma keeps_modify (f : S -> S) : (forall s, R s (f s)) -> keeps R (modify f).
Proof. intros Hf s. apply Hf. Qed.

Lemma keeps_bind {A B} (c : M S A) (f : A -> M S B) :
  keeps R c -> (forall a, keeps R (f a)) -> keeps R (c ≫= f).
Proof.
  intros Hc Hf s. unfold mbind, M_bind.
  specialize (Hc s). destruct (c s) as [[a|e] s']; simpl in *.
  - etransitivity; [exact Hc | apply Hf].
  - exact Hc.
Qed.

Lemma keeps_try {A} (c : M S A) (h : exn -> M S A) :
  keeps R c -> (forall e, keeps R (h e)) -> keeps R (try_except c h).
Proof.
  intros Hc Hh s. unfold try_except.
  specialize (Hc s). destruct (c s) as [[a|e] s']; simpl in *.
  - exact Hc.
  - etransitivity; [exact Hc | apply Hh].
Qed.
End KeepsRules.

(** One step through the syntax of a computation. *)
Ltac keeps_step :=
  lazymatch goal with
  | |- keeps _ (mbind _ _) => apply keeps_bind; [apply _ | | intros ?]
  | |- keeps _ (mret _) => solve [apply keeps_ret; try apply _]
  | |- keeps _ (lift _) => solve [apply keeps_lift; try apply _]
  | |- keeps _ (raise _) => solve [apply keeps_raise; try apply _]
  | |- keeps _ get => solve [apply keeps_get; try apply _]
  | |- keeps _ (try_except _ _) => apply keeps_try; [apply _ | | intros ?]
  | |- keeps _ (if ?b then _ else _) => destruct b
  | |- keeps _ (match ?x with _ => _ end) => destruct x
  end.

(* ===================================================================== *)
(** * Properties of [VoskPlugin] *)
(* ===================================================================== *)

Section VoskFacts.
Import Vosk.
Context {os : OsPath} {lib : VoskLib} {uni : Unicode}.
Variable fs : filesystem.

(** ** Running a computation *)

Lemma bind_run {A B} (c : M world A) (f : A -> M world B) w a w' :
  c w = (Ok a, w') -> (c ≫= f) w = f a w'.
Proof. intros H. unfold mbind, M_bind. by rewrite H. Qed.


Lemma get_config_value_run key default w d :
  retained w = Some d ->
  get_config_value key default w = (Ok (dict_get d key default), w).
Proof.
  unfold retained, get_config_value, config_dict, config_ref, deref, mbind, M_bind.
  destruct (_config (self w)) as [l|]; [|done]. intros ->. reflexivity.
Qed.

Lemma retained_upd_self f w :
  (forall p, _config (f p) = _config p) -> retained (upd_self f w) = retained w.
Proof. intros Hf. unfold retained. simpl. by rewrite Hf. Qed.

Lemma config_ref_run w d :
  retained w = Some d -> exists l, config_ref w = (Ok l, w).
Proof.
  unfold config_ref, retained. destruct (_config (self w)); [eauto|done].
Qed.

Lemma retained_ref w d :
  retained w = Some d -> exists l, _config (self w) = Some l.
Proof. unfold retained. destruct (_config (self w)); [eauto|done]. Qed.


(** ** What [setup] leaves alone *)

#[local] Instance same_store_refl : Reflexive same_store.
Proof. by intros w. Qed.

#[local] Instance same_store_trans : Transitive same_store.
Proof. intros a b c H1 H2. unfold same_store in *. congruence. Qed.



#[local] Instance config_frame_refl l : Reflexive (config_frame l).
Proof.
  intros w Hc. split; [done|]. split; [done|].
  destruct (store w !! l); [|done]. by intros k _.
Qed.

#[local] Instance config_frame_trans l : Transitive (config_frame l).
Proof.
  intros a b c Hab Hbc Ha.
  destruct (Hab Ha) as (Hb & Hab1 & Hab2).
  destruct (Hbc Hb) as (Hc & Hbc1 & Hbc2).
  split; [done|]. split.
  - intros l' Hl'. rewrite Hbc1, Hab1; done.
  - destruct (store a !! l), (store b !! l), (store c !! l); try done.
    intros k Hk. rewrite Hbc2, Hab2; done.
Qed.

Lemma config_frame_same l (w w' : world) :
  store w' = store w -> _config (self w') = _config (self w) ->
  config_frame l w w'.
Proof.
  intros Hs Hcfg Hw. rewrite Hcfg, Hs. split; [done|]. split; [done|].
  destruct (store w !! l); [|done]. by intros k _.
Qed.

Lemma frame_log l ev : keeps (config_frame l) (log ev).
Proof. apply keeps_modify. intros w. by apply config_frame_same. Qed.

Lemma frame_set_self l f :
  (forall p, _config (f p) = _config p) -> keeps (config_frame l) (set_self f).
Proof.
  intros Hf. apply keeps_modify. intros w. apply config_frame_same; simpl; auto.
Qed.

Lemma frame_on_recognizer l {A} (op : KaldiRecognizer -> res A * KaldiRecognizer) :
  keeps (config_frame l) (on_recognizer op).
Proof.
  intros w. unfold on_recognizer.
  destruct (recognizer (self w)) as [r|]; [|reflexivity].
  destruct (op r). by apply config_frame_same.
Qed.

Lemma frame_config_ref l : keeps (config_frame l) config_ref.
Proof. intros w. unfold config_ref. destruct (_config (self w)); reflexivity. Qed.

Lemma frame_deref l l' : keeps (config_frame l) (deref l').
Proof. intros w. unfold deref. destruct (store w !! l'); reflexivity. Qed.

Lemma frame_get_config_value l key default :
  keeps (config_frame l) (get_config_value key default).
Proof.
  unfold get_config_value, config_dict.
  repeat first [ apply frame_config_ref | apply frame_deref | keeps_step ].
Qed.

(** The one write of the plugin into a dictionary. *)
Lemma frame_config_setitem l v :
  keeps (config_frame l) (config_setitem (py "path") v).
Proof.
  intros w Hw. unfold config_setitem, config_ref, mbind, M_bind.
  rewrite Hw. simpl. split; [done|]. split.
  - intros l' Hl'. by rewrite lookup_alter_ne.
  - rewrite lookup_alter_eq. destruct (store w !! l); simpl; [|done].
    intros k Hk. by rewrite lookup_insert_ne.
Qed.

Ltac frame_tac :=
  repeat first
    [ apply frame_log | apply frame_on_recognizer | apply frame_config_ref
    | apply frame_deref | apply frame_get_config_value
    | apply frame_config_setitem
    | solve [apply frame_set_self; intros []; reflexivity]
    | keeps_step ].

Lemma frame_setup_load l p mock : keeps (config_frame l) (setup_load p mock).
Proof. unfold setup_load. frame_tac. Qed.

Lemma frame_setup l : keeps (config_frame l) (setup fs).
Proof.
  unfold setup, setup_body, setup_check, setup_missing.
  repeat first [ apply frame_setup_load | progress frame_tac ].
Qed.

(** ** [setup] and [initialize] step by step *)

(** [setup] never raises. *)
Lemma setup_total (w : world) : exists b, (setup fs w).1 = Ok b.
Proof.
  unfold setup, try_except.
  destruct (setup_body fs w) as [[b|e] w']; simpl; eauto.
Qed.

Lemma initialize_run (config : loc) (w : world) :
  exists b w',
    setup fs (upd_self (with_config (Some config)) w) = (Ok b, w')
    /\ initialize fs config w =
         (Ok b, if b then upd_self (with_initialized true) w'
                else add_event (EvError InitializationFailed) w').
Proof.
  destruct (setup_total (upd_self (with_config (Some config)) w)) as [b Hb].
  destruct (setup fs (upd_self (with_config (Some config)) w)) as [r w'] eqn:Hs.
  simpl in Hb. subst r. exists b, w'. split; [done|].
  unfold initialize, try_except.
  erewrite bind_run by reflexivity.
  erewrite bind_run by exact Hs.
  by destruct b.
Qed.

Lemma setup_check_run v mock w d :
  retained w = Some d ->
  setup_check fs v mock w =
    match v with
    | VStr p =>
        if negb (path_exists fs p) && negb (truthy mock)
        then setup_missing fs p mock
        else setup_load p mock
    | _ => raise TypeError
    end (upd_self (with_use_words (dict_get d (py "use_words") (VBool true)))
           (upd_self (with_sample_rate (dict_get d (py "sample_rate") (VInt 16000))) w)).
Proof.
  intros Hd. unfold setup_check.
  erewrite bind_run by (by apply get_config_value_run).
  erewrite bind_run by reflexivity.
  erewrite bind_run.
  2:{ apply get_config_value_run. rewrite retained_upd_self; [done|by intros []]. }
  erewrite bind_run by reflexivity.
  reflexivity.
Qed.

Lemma setup_body_run w d :
  retained w = Some d ->
  truthy (dict_get d (py "path") VNone) = true ->
  setup_body fs w =
    setup_check fs (dict_get d (py "path") VNone)
      (dict_get d (py "mock_mode") (VBool false)) w.
Proof.
  intros Hd Hp. unfold setup_body.
  destruct (config_ref_run w d Hd) as [l Hl].
  erewrite bind_run by exact Hl.
  erewrite bind_run by (by apply get_config_value_run).
  erewrite bind_run by (by apply get_config_value_run).
  by rewrite Hp.
Qed.

Lemma setup_missing_run p mock w l :
  _config (self w) = Some l ->
  truthy mock = false ->
  setup_missing fs p mock w =
    match fallback_path fs p with
    | None => (Ok false, add_event (EvError ModelPathMissing) w)
    | Some q => setup_load q mock (upd_store (alter (insert (py "path") (VStr q)) l) w)
    end.
Proof.
  intros Hl Hmock. unfold setup_missing, fallback_path.
  assert (Hset : forall v, config_setitem (py "path") v w
                 = (Ok tt, upd_store (alter (insert (py "path") v) l) w)).
  { intros v. unfold config_setitem, config_ref, mbind, M_bind. by rewrite Hl. }
  rewrite Hmock. simpl negb.
  destruct (isabs p); simpl; [reflexivity|].
  destruct (path_exists fs (join (project_root fs) p)).
  { erewrite bind_run by apply Hset. reflexivity. }
  destruct (path_exists fs hardcoded_model_path).
  { erewrite bind_run by apply Hset. reflexivity. }
  reflexivity.
Qed.

#[local] Instance same_model_refl : Reflexive same_model.
Proof. by intros w. Qed.

#[local] Instance same_model_trans : Transitive same_model.
Proof. intros a b c H1 H2. unfold same_model in *. congruence. Qed.





(** ** The claims about [initialize], [setup] and [load_model] *)




(** C9. When [load_model] answers false, the mapping the instance
    retains afterwards has exactly the content of the one it retained
    before the call. *)
Theorem load_model_failure_restores (model_path : pyval) (w : world) (l : loc)
    (d : gmap pystr pyval) :
  _config (self w) = Some l ->
  store w !! l = Some d ->
  (load_model fs model_path w).1 = Ok false ->
  exists l', _config (self (load_model fs model_path w).2) = Some l'
          /\ store (load_model fs model_path w).2 !! l' = Some d.
Proof.
  intros Hcfg Hd.
  set (cc := fresh (dom (store w))).
  assert (Hcc : cc ≠ l).
  { intros Heq. apply (is_fresh (dom (store w))). fold cc. rewrite Heq.
    apply elem_of_dom. eauto. }
  destruct w as [st [cfg ini m r sr uw et md] tr]; simpl in Hcfg, Hd, cc, Hcc.
  subst cfg.
  cbv [load_model try_except mbind M_bind get deref set_store modify
       config_setitem config_ref teardown set_self mret M_ret
       store self trace _config with_model with_recognizer
       upd_self upd_store add_event].
  rewrite Hd.
  cbv [load_model try_except mbind M_bind get deref set_store modify
       config_setitem config_ref teardown set_self mret M_ret
       store self trace _config with_model with_recognizer
       upd_self upd_store add_event].
  match goal with |- context [setup fs ?x] => set (w2 := x) end.
  assert (Hcfg2 : _config (self w2) = Some l) by reflexivity.
  assert (Hcc2 : store w2 !! cc = Some d).
  { subst w2. cbn [store]. fold cc.
    rewrite lookup_alter_ne by done. apply lookup_insert_eq. }
  destruct (frame_setup l w2 Hcfg2) as (_ & Hother & _).
  destruct (setup_total w2) as [b Hb].
  destruct (setup fs w2) as [rb w3]. simpl in Hb, Hother. subst rb.
  destruct b; simpl; [discriminate|]. intros _.
  exists cc. split; [reflexivity|].
  rewrite Hother by done. exact Hcc2.
Qed.

(** ** [validate_files] *)

#[local] Instance same_engine_refl : Reflexive same_engine.
Proof. by intros w. Qed.

#[local] Instance same_engine_trans : Transitive same_engine.
Proof. intros a b c [H1 H2] [H3 H4]. split; congruence. Qed.

Lemma validate_files_same_engine : keeps same_engine (validate_files fs).
Proof.
  assert (Hlog : forall ev, keeps same_engine (log ev))
    by (intros ev; by apply keeps_modify).
  assert (Hget : forall k v, keeps same_engine (get_config_value k v)).
  { intros k v w. unfold get_config_value, config_dict, config_ref, deref, mbind, M_bind.
    destruct (_config (self w)) as [l|]; [|done]. by destruct (store w !! l). }
  assert (Hdir : forall v, keeps same_engine (set_self (with_model_dir v)))
    by (intros v; by apply keeps_modify).
  unfold validate_files.
  repeat first [ apply Hlog | apply Hget | apply Hdir | keeps_step ].
Qed.

(** C7. For the model root [validate_files] checks, the answer is true
    exactly when the root exists, its "am" subdirectory is there and
    "am/final.mdl" exists, and false as soon as one of the three is
    missing; the check neither creates nor replaces a recognizer or a
    model. *)
Theorem validate_files_layout (w : world) (root : pystr) :
  model_root w root ->
  (validate_files fs w).1 =
    Ok (path_exists fs root
        && path_isdir fs (join root (py "am"))
        && path_exists fs (join (join root (py "am")) (py "final.mdl")))
  /\ recognizer (self (validate_files fs w).2) = recognizer (self w)
  /\ model (self (validate_files fs w).2) = model (self w).
Proof.
  intros [Hne Hroot]. split; [|apply validate_files_same_engine].
  assert (Htruthy : truthy (VStr root) = true) by (by destruct root).
  assert (Hisdir : forall q, path_isdir fs q = true -> path_exists fs q = true).
  { intros q. unfold path_isdir, path_exists. by destruct (entries fs !! q). }
  unfold validate_files, try_except.
  erewrite bind_run by reflexivity.
  assert (Hrest : exists w1, model_dir (self w1) = VStr root /\
    ((if negb (truthy (model_dir (self w)))
      then get_config_value (py "path") VNone ≫= λ v, set_self (with_model_dir v)
      else mret ()) w) = (Ok tt, w1)).
  { destruct Hroot as [Hmd | (Hfalsy & d & Hret & Hp)].
    - exists w. by rewrite Hmd, Htruthy.
    - exists (upd_self (with_model_dir (VStr root)) w). split; [done|].
      rewrite Hfalsy. cbn [negb].
      erewrite bind_run by (by apply get_config_value_run).
      by rewrite Hp. }
  destruct Hrest as (w2 & Hmd & Hrun).
  erewrite bind_run by exact Hrun.
  erewrite bind_run by reflexivity.
  rewrite Hmd, Htruthy. cbn [negb].
  erewrite bind_run by reflexivity.
  destruct (path_exists fs root); cbn [negb andb]; [|reflexivity].
  erewrite bind_run by reflexivity.
  destruct (path_isdir fs (join root (py "am"))) eqn:Hd.
  - rewrite (Hisdir _ Hd). cbn [negb orb andb].
    by destruct (path_exists fs (join (join root (py "am")) (py "final.mdl"))).
  - rewrite orb_true_r. reflexivity.
Qed.

(** ** [transcribe_file] *)

(** C3. A path that does not exist, and a file that is not mono, 16-bit,
    uncompressed PCM (or not a WAVE file at all), make [transcribe_file]
    return [None]; the failure is reported (file not found, unsupported
    format) and that report is the only event of the call: no frame has
    been read. *)
Theorem transcribe_file_rejects (file_path : pystr) (w : world) :
  (path_exists fs file_path = false
   \/ (exists wf, entries fs !! file_path = Some (File (Some wf)) /\ unsupported wf)
   \/ (path_exists fs file_path = true
       /\ exists e, wave_open fs file_path = Raise e)) ->
  transcribe_file fs file_path w
  = (Ok None, add_event (EvError (rejection fs file_path w)) w).
Proof.
  intros Hbad. unfold transcribe_file, try_except, rejection.
  erewrite bind_run by reflexivity.
  destruct (recognizer (self w)) as [r|]; [|reflexivity].
  destruct Hbad as [Hex | [(wf & Hwf & Hfmt) | (Hex & e & Hopen)]].
  - rewrite Hex. reflexivity.
  - assert (Hex : path_exists fs file_path = true)
      by (unfold path_exists; by rewrite Hwf).
    assert (Hopen : wave_open fs file_path = Ok wf)
      by (unfold wave_open; by rewrite Hwf).
    rewrite Hex, Hopen. cbn [negb].
    erewrite bind_run by reflexivity.
    assert (Hcond : negb (nchannels wf =? 1) || negb (sampwidth wf =? 2)
                    || negb (bool_decide (comptype wf = py "NONE")) = true).
    { destruct Hfmt as [H1 | [H2 | H3]].
      - apply Z.eqb_neq in H1. by rewrite H1.
      - apply Z.eqb_neq in H2. rewrite H2. by rewrite orb_true_r.
      - rewrite (bool_decide_eq_false_2 _ H3). by rewrite orb_true_r. }
    rewrite Hcond. reflexivity.
  - rewrite Hex, Hopen. reflexivity.
Qed.



(** More fuel than [S (length rem)] changes nothing: the loop has ended. *)
Lemma stream_fuel (fuel : nat) :
  forall (rem : list Z) (results : list pyval) (w : world),
    (length rem < fuel)%nat ->
    stream (S fuel) rem results w = stream fuel rem results w.
Proof.
  induction fuel as [|fuel IH]; intros rem results w Hlen; [lia|].
  cbn [stream]. unfold mbind, M_bind. cbn [log modify].
  destruct (take 4000 rem) as [|z data] eqn:Htake; [done|].
  destruct (on_recognizer (AcceptWaveform (z :: data)) _) as [[accepted|e] w2];
    [|done].
  assert (Hdrop : (length (drop 4000 rem) < fuel)%nat).
  { rewrite length_drop. destruct rem; [discriminate|]. cbn [length] in *. lia. }
  destruct accepted.
  - destruct (on_recognizer Result w2) as [[result|e] w3]; [|done].
    cbn [mret M_ret]. by apply IH.
  - cbn [mret M_ret]. by apply IH.
Qed.



(** ** Transcribing the same file again *)

Lemma rec_det_ret {A} (a : A) : rec_det (mret a).
Proof. by intros w1 w2 H. Qed.

Lemma rec_det_lift {A} (r : res A) : rec_det (lift r).
Proof. by intros w1 w2 H. Qed.

Lemma rec_det_log ev : rec_det (log ev).
Proof. by intros w1 w2 H. Qed.

Lemma rec_det_on_recognizer {A} (op : KaldiRecognizer -> res A * KaldiRecognizer) :
  rec_det (on_recognizer op).
Proof.
  intros w1 w2 H. unfold on_recognizer, same_recognizer in *. rewrite H.
  destruct (recognizer (self w2)) as [r|] eqn:E;
    [|split; [reflexivity | simpl; congruence]].
  destruct (op r) as [a r']. split; reflexivity.
Qed.

Lemma rec_det_bind {A B} (c : M world A) (f : A -> M world B) :
  rec_det c -> (forall a, rec_det (f a)) -> rec_det (c ≫= f).
Proof.
  intros Hc Hf w1 w2 H. unfold mbind, M_bind.
  destruct (Hc w1 w2 H) as [Hr Hw].
  destruct (c w1) as [r1 w1'], (c w2) as [r2 w2']. simpl in Hr, Hw. subst r2.
  destruct r1 as [a|e]; [by apply Hf | done].
Qed.

Lemma rec_det_stream (fuel : nat) :
  forall rem results, rec_det (stream fuel rem results).
Proof.
  induction fuel as [|fuel IH]; intros rem results; cbn [stream].
  - apply rec_det_ret.
  - apply rec_det_bind; [apply rec_det_log|]. intros _.
    destruct (take 4000 rem); [apply rec_det_ret|].
    apply rec_det_bind; [apply rec_det_on_recognizer|]. intros accepted.
    apply rec_det_bind; [|intros; apply IH].
    destruct accepted; [|apply rec_det_ret].
    apply rec_det_bind; [apply rec_det_on_recognizer|]. intros; apply rec_det_ret.
Qed.

(** After the reset at its start, [collect] no longer depends on what
    the recognizer had heard before. *)
Lemma collect_reset_equiv (wf : wave_file) (w1 w2 : world) :
  reset_equiv w1 w2 -> (collect wf w1).1 = (collect wf w2).1.
Proof.
  intros Heq. unfold collect.
  set (rest := fun _ : () =>
         stream (S (length (frames wf))) (frames wf) []
         ≫= λ results, on_recognizer FinalResult
         ≫= λ final_result, lift (str_join (py " ") (append_text final_result results))).
  assert (Hrest : forall u, rec_det (rest u)).
  { intros u. unfold rest.
    apply rec_det_bind; [apply rec_det_stream|]. intros results.
    apply rec_det_bind; [apply rec_det_on_recognizer|]. intros fr.
    apply rec_det_lift. }
  change ((on_recognizer Reset ≫= rest) w1).1 with
    (match on_recognizer Reset w1 with
     | (Ok a, s') => rest a s' | (Raise e, s') => (Raise e, s') end).1.
  change ((on_recognizer Reset ≫= rest) w2).1 with
    (match on_recognizer Reset w2 with
     | (Ok a, s') => rest a s' | (Raise e, s') => (Raise e, s') end).1.
  unfold on_recognizer, reset_equiv in *.
  destruct (recognizer (self w1)) as [r1|], (recognizer (self w2)) as [r2|];
    try done.
  rewrite Heq. destruct (Reset r2) as [[u|e] r']; [|done].
  by apply Hrest.
Qed.

Lemma transcribe_file_reset_equiv (file_path : pystr) (w1 w2 : world) :
  reset_equiv w1 w2 ->
  (transcribe_file fs file_path w1).1 = (transcribe_file fs file_path w2).1.
Proof.
  intros Heq. unfold transcribe_file, try_except.
  erewrite !bind_run by reflexivity.
  pose proof Heq as Hpres. unfold reset_equiv in Hpres.
  destruct (recognizer (self w1)) as [r1|], (recognizer (self w2)) as [r2|];
    try done.
  destruct (path_exists fs file_path); [|done]. cbn [negb].
  pose proof (fun wf => collect_reset_equiv wf w1 w2 Heq) as Hc.
  unfold mbind, M_bind, lift.
  destruct (wave_open fs file_path) as [wf|e]; [|done].
  destruct (negb (nchannels wf =? 1) || negb (sampwidth wf =? 2)
            || negb (bool_decide (comptype wf = py "NONE"))); [done|].
  specialize (Hc wf).
  destruct (collect wf w1) as [t1 w1'], (collect wf w2) as [t2 w2'].
  simpl in Hc. subst t2. destruct t1 as [t|e]; [|done].
  by destruct (format_transcript t) as [o|e].
Qed.

#[local] Instance reset_equiv_refl : Reflexive reset_equiv.
Proof. intros w. unfold reset_equiv. by destruct (recognizer (self w)). Qed.

#[local] Instance reset_equiv_trans : Transitive reset_equiv.
Proof.
  intros a b c. unfold reset_equiv.
  destruct (recognizer (self a)), (recognizer (self b)), (recognizer (self c));
    try done. congruence.
Qed.

Lemma reset_equiv_sym (w1 w2 : world) : reset_equiv w1 w2 -> reset_equiv w2 w1.
Proof.
  unfold reset_equiv.
  by destruct (recognizer (self w1)), (recognizer (self w2)).
Qed.

Lemma reset_equiv_on_recognizer {A} (op : KaldiRecognizer -> res A * KaldiRecognizer) :
  (forall r, Reset (op r).2 = Reset r) -> keeps reset_equiv (on_recognizer op).
Proof.
  intros Hop w. unfold on_recognizer, reset_equiv.
  destruct (recognizer (self w)) as [r|] eqn:E; simpl; rewrite ?E; [|done].
  specialize (Hop r). destruct (op r) as [a r']. simpl in *. by rewrite ?E.
Qed.

Lemma reset_equiv_log ev : keeps reset_equiv (log ev).
Proof. apply keeps_modify. intros w. exact (reset_equiv_refl w). Qed.

Lemma reset_equiv_stream (Hlaws : reset_forgets) (fuel : nat) :
  forall rem results, keeps reset_equiv (stream fuel rem results).
Proof.
  destruct Hlaws as (Hacc & Hres & _ & _).
  induction fuel as [|fuel IH]; intros rem results; cbn [stream].
  - apply keeps_ret; apply _.
  - apply keeps_bind; [apply _ | apply reset_equiv_log | intros _].
    destruct (take 4000 rem); [apply keeps_ret; apply _|].
    apply keeps_bind; [apply _ | by apply reset_equiv_on_recognizer
                      | intros accepted].
    apply keeps_bind; [apply _ | | intros results'; apply IH].
    destruct accepted; [|apply keeps_ret; apply _].
    apply keeps_bind; [apply _ | by apply reset_equiv_on_recognizer | intros result].
    apply keeps_ret; apply _.
Qed.

Lemma reset_equiv_transcribe_file (Hlaws : reset_forgets) (file_path : pystr) :
  keeps reset_equiv (transcribe_file fs file_path).
Proof.
  pose proof (reset_equiv_stream Hlaws) as Hstream.
  destruct Hlaws as (Hacc & Hres & Hfin & Hreset).
  unfold transcribe_file, collect.
  repeat first [ apply reset_equiv_log | apply Hstream
               | solve [by apply reset_equiv_on_recognizer] | keeps_step ].
Qed.

(** C6. With a recognizer whose [Reset] discards what it has heard, a
    second [transcribe_file] of the same file, with no [reset()] in
    between, returns what the first returned: nothing of the first run
    is counted again, because the recognizer is reset before the file is
    streamed. *)
Theorem transcribe_file_repeatable (file_path : pystr) (w : world) :
  reset_forgets ->
  (transcribe_file fs file_path (transcribe_file fs file_path w).2).1
  = (transcribe_file fs file_path w).1.
Proof.
  intros Hlaws. apply transcribe_file_reset_equiv, reset_equiv_sym.
  apply (reset_equiv_transcribe_file Hlaws).
Qed.

End VoskFacts.

(* ===================================================================== *)
(** * The properties on the concrete environments *)
(* ===================================================================== *)

Section Runs.
Import Vosk.
#[local] Existing Instances posix vosk_lib ascii_upper.





Lemma transcribe_file_rejects_witness :
  transcribe_file demo_fs (py "stereo.wav") ready_world
  = (Ok None, add_event (EvError UnsupportedFormat) ready_world).
Proof.
  apply (transcribe_file_rejects demo_fs (py "stereo.wav") ready_world).
  right; left. eexists. split; [vm_compute; reflexivity|].
  left. simpl. lia.
Defined.

(** A path that does not exist. *)
Example transcribe_file_missing :
  transcribe_file demo_fs (py "absent.wav") ready_world
  = (Ok None, add_event (EvError FileNotFound) ready_world).
Proof. vm_compute. reflexivity. Qed.


(** A recording of 8001 frames is read as 4000, 4000 and 1 frames, and
    one empty block that ends the loop. *)
Example transcribe_file_long :
  (fun ev => match ev with EvReadFrames data => length data | _ => 0%nat end)
    <$> trace (transcribe_file long_fs (py "long.wav") ready_world).2
  = [4000; 4000; 1; 0]%nat.
Proof. vm_compute. reflexivity. Qed.

Example format_transcript_hello :
  format_transcript (py "hello world") = Ok (Some (py "Hello world.")).
Proof. vm_compute. reflexivity. Qed.

Example format_transcript_question :
  format_transcript (py "is it so?") = Ok (Some (py "Is it so?")).
Proof. vm_compute. reflexivity. Qed.


(** The stand-in recognizer of the source keeps no state at all. *)
Lemma vosk_lib_reset_forgets : reset_forgets.
Proof. repeat split. Qed.

Lemma transcribe_file_repeatable_witness :
  (transcribe_file demo_fs (py "speech.wav")
     (transcribe_file demo_fs (py "speech.wav") ready_world).2).1
  = (transcribe_file demo_fs (py "speech.wav") ready_world).1.
Proof.
  apply transcribe_file_repeatable. exact vosk_lib_reset_forgets.
Defined.

Lemma validate_files_layout_witness :
  (validate_files demo_fs ready_world).1 = Ok true
  /\ recognizer (self (validate_files demo_fs ready_world).2)
     = recognizer (self ready_world)
  /\ model (self (validate_files demo_fs ready_world).2) = model (self ready_world).
Proof.
  refine (validate_files_layout demo_fs ready_world (py "/opt/model") _).
  split; [discriminate|]. right. split; [reflexivity|].
  exists model_config. split; vm_compute; reflexivity.
Defined.

(** C7 as stated does not hold. Once [validate_files] has cached the
    model root "/opt/model", [load_model] configures "/opt/sherpa", a
    root that has no "am" subdirectory and no "am/final.mdl";
    [validate_files] still looks at the cached root and answers true. *)
Lemma validate_files_stale_root :
  config_item (load_model demo_fs (VStr (py "/opt/sherpa")) checked_world).2 2
    (py "path") = Some (VStr (py "/opt/sherpa"))
  /\ _config (self (load_model demo_fs (VStr (py "/opt/sherpa")) checked_world).2)
     = Some 2%positive
  /\ path_exists demo_fs (py "/opt/sherpa") = true
  /\ path_exists demo_fs (join (py "/opt/sherpa") (py "am")) = false
  /\ path_exists demo_fs (join (join (py "/opt/sherpa") (py "am")) (py "final.mdl"))
     = false
  /\ (validate_files demo_fs
        (load_model demo_fs (VStr (py "/opt/sherpa")) checked_world).2).1
     = Ok true.
Proof. vm_compute. repeat split. Qed.

(** A root without its "am" subdirectory. *)
Example validate_files_incomplete :
  (validate_files demo_fs
     (upd_self (with_model_dir (VStr (py "/opt/sherpa"))) ready_world)).1
  = Ok false.
Proof. vm_compute. reflexivity. Qed.

Lemma load_model_failure_restores_witness :
  exists l',
    _config (self (load_model demo_fs (VStr (py "/nowhere/other")) ready_world).2)
    = Some l'
    /\ store (load_model demo_fs (VStr (py "/nowhere/other")) ready_world).2 !! l'
       = Some model_config.
Proof.
  apply (load_model_failure_restores demo_fs _ ready_world 2%positive);
    vm_compute; reflexivity.
Defined.

End Runs.

(* ===================================================================== *)
(** * Further properties of [ConfigManager] *)
(* ===================================================================== *)

Section ConfigManagerMore.
Import ConfigManager.

(** X1. [set_config] on a root that is a dict answers true and assigns
    one entry of the dicts that were there; what [get_config] reads along
    a key path that does not pass through that entry is as before. *)
Theorem set_config_frame (self : t) (value default : pyobj)
    (keys keys' : list pystr) (r : ref) (es : list (ref * pystr)) :
  _config self = ORef r ->
  is_Some (objects self !! r) ->
  keys ≠ [] ->
  read_entries (objects self) (ORef r) (split_keys keys') = Some es ->
  written (objects self) r (removelast (split_keys keys))
    (List.last (split_keys keys) []) ∉ es ->
  (set_config self value keys).1 = true
  /\ get_config (set_config self value keys).2 keys' default
     = get_config self keys' default.
Proof.
  intros Hroot Hr Hne Hes Hw.
  rewrite (set_config_run _ _ _ r) by done. split; [done|]. cbn [snd].
  destruct keys' as [|k' keys']; [done|].
  rewrite !get_config_run by done. cbn [objects _config]. rewrite Hroot.
  eapply lookup_path_frame; [by apply keeps_but_store_path|exact Hes|exact Hw].
Qed.

(** X2. [set_ui_config] answers true, and when the entry it assigns is
    not one of the entries it follows to get there, [get_ui_config] with
    the same keys then gives back the value. *)
Theorem set_ui_config_get_ui_config (self : t) (value default : pyobj)
    (keys : list pystr) :
  root_is_mapping self ->
  entry_off_path self (py "ui" :: keys) ->
  (set_ui_config self value keys).1 = true
  /\ get_ui_config (set_ui_config self value keys).2 keys default = value.
Proof.
  intros Hroot Hoff. unfold set_ui_config, get_ui_config. split.
  - destruct Hroot as [Hnone | (r & Hr & Hd)].
    + by rewrite set_config_run_None.
    + by rewrite (set_config_run _ _ _ r).
  - by apply store_then_lookup.
Qed.

(** ** Dotted keys behind "ui" *)

Lemma split_dot_no_dot (s : pystr) :
  Forall (fun seg => has_dot seg = false) (split_dot s).
Proof.
  induction s as [|c s IH]; cbn [split_dot].
  - by repeat constructor.
  - destruct (c =? 46)%N eqn:Hc.
    + by constructor.
    + destruct (split_dot s) as [|seg rest].
      * constructor; [|done]. unfold has_dot. cbn [existsb].
        by rewrite N.eqb_sym, Hc.
      * inversion IH as [|? ? Hseg Hrest]; subst. constructor; [|done].
        unfold has_dot in *. cbn [existsb]. by rewrite N.eqb_sym, Hc.
Qed.

(** [store_path] assigns under the keys of its path only. *)
Lemma store_path_other_keys (lastk : pystr) (value : pyobj) (k : pystr)
    (init : list pystr) :
  forall (h : heap) (c r : ref),
    k ∉ init ++ [lastk] ->
    store_path h c init lastk value !! r ≫= (.!! k) = h !! r ≫= (.!! k).
Proof.
  induction init as [|key init IH]; intros h c r Hk; cbn [store_path app] in *.
  - apply not_elem_of_cons in Hk as [Hk _].
    destruct (decide (r = c)) as [->|Hrc].
    + rewrite lookup_alter_eq. destruct (h !! c) as [d|]; [|done]. cbn.
      by rewrite lookup_insert_ne.
    + by rewrite lookup_alter_ne.
  - apply not_elem_of_cons in Hk as [Hkey Hk].
    destruct (subdict h c key) as [r0|]; [by apply IH|].
    rewrite IH by done.
    destruct (decide (r = fresh (dom h))) as [->|Hrf].
    + rewrite lookup_insert_eq. cbn. rewrite lookup_empty.
      assert (h !! fresh (dom h) = None) as ->; [|done].
      apply not_elem_of_dom. apply is_fresh.
    + rewrite lookup_insert_ne by done.
      destruct (decide (r = c)) as [->|Hrc].
      * rewrite lookup_alter_eq. destruct (h !! c) as [d|]; [|done]. cbn.
        by rewrite lookup_insert_ne.
      * by rewrite lookup_alter_ne.
Qed.

(** A dotted key under "ui" is out of the way of [store_path] behind
    "ui". *)
Lemma dotted_key_unread (h : heap) (c : ref) (init : list pystr)
    (lastk k : pystr) (value default : pyobj) :
  is_Some (h !! c) ->
  k ∉ init ++ [lastk] ->
  lastk ≠ py "ui" ->
  lookup_path (store_path h c (py "ui" :: init) lastk value) (ORef c)
    [py "ui"; k] default
  = lookup_path h (ORef c) [py "ui"; k] default.
Proof.
  intros [d Hc] Hk Hlast. cbn [store_path].
  destruct (subdict h c (py "ui")) as [u|] eqn:Hsub.
  - pose proof Hsub as (d0 & Hd0 & Hui & [du Hu])%subdict_Some.
    assert (d0 = d) as -> by congruence.
    assert (Hw : (c, py "ui") ≠ written h u init lastk).
    { intros Heq. destruct (written_spec h lastk init u) as [Hnone | Hl].
      - rewrite <- Heq in Hnone. cbn [fst snd] in Hnone. congruence.
      - rewrite <- Heq in Hl. cbn [fst snd] in Hl. congruence. }
    destruct (store_path_keeps lastk value init h u (mk_is_Some _ _ Hu) c d Hc)
      as (d' & Hd' & Hkeep).
    pose proof (store_path_other_keys lastk value k init h u u Hk) as Hother.
    destruct (store_path_is_Some lastk value init h u u (mk_is_Some _ _ Hu))
      as [du' Hu'].
    rewrite Hu', Hu in Hother. cbn in Hother.
    cbn [lookup_path deref]. rewrite Hd', Hc, (Hkeep _ Hw), Hui.
    cbn [lookup_path deref]. by rewrite Hu', Hu, Hother.
  - assert (Hbefore : lookup_path h (ORef c) [py "ui"; k] default = default).
    { cbn [lookup_path deref]. rewrite Hc. unfold subdict in Hsub. rewrite Hc in Hsub.
      destruct (d !! py "ui") as [[| | | |x]|]; try done. cbn [deref].
      destruct (h !! x) as [dx|] eqn:Hx; [|done].
      by rewrite bool_decide_eq_true_2 in Hsub by eauto. }
    rewrite Hbefore.
    destruct (make_subdict_lookup h c (py "ui") c d Hc) as (d1 & Hd1 & _ & Hnew).
    set (h1 := <[fresh (dom h) := ∅]> _) in *.
    assert (H0 : h1 !! fresh (dom h) = Some ∅) by apply lookup_insert_eq.
    destruct (store_path_keeps lastk value init h1 (fresh (dom h))
                (mk_is_Some _ _ H0) c d1 Hd1) as (d' & Hd' & Hkeep).
    pose proof (store_path_other_keys lastk value k init h1 (fresh (dom h))
                  (fresh (dom h)) Hk) as Hother.
    destruct (store_path_is_Some lastk value init h1 (fresh (dom h))
                (fresh (dom h)) (mk_is_Some _ _ H0)) as [d0' Hd0'].
    rewrite Hd0', H0 in Hother. cbn in Hother. rewrite lookup_empty in Hother.
    cbn [lookup_path deref]. rewrite Hd', Hkeep, Hnew; [|done|].
    + cbn [lookup_path deref]. by rewrite Hd0', Hother.
    + intros Heq. apply (f_equal fst) in Heq.
      rewrite (written_empty h1 _ _ _ H0) in Heq. cbn in Heq.
      by apply (fresh_not_in h c); eauto.
Qed.

(** X3. On a root that is a dict or still [None], for a dotted key <k>
    whose last segment is neither "ui" nor one of its earlier segments: a
    value stored by [set_config] under the single key "ui.<k>" is not what
    [get_ui_config] reads under <k>, since behind "ui" the key is no
    longer alone and is not split; that call reads what it read before.
    [get_ui_config] with the segments of <k> given one by one reads the
    value. *)
Theorem ui_dotted_key (self : t) (value default : pyobj) (k : pystr) :
  root_is_mapping self ->
  has_dot k = true ->
  List.last (split_dot k) [] ∉ py "ui" :: removelast (split_dot k) ->
  get_ui_config (set_config self value [py "ui." ++ k]).2 [k] default
  = get_ui_config self [k] default
  /\ get_ui_config (set_config self value [py "ui." ++ k]).2 (split_dot k) default
     = value.
Proof.
  intros Hroot Hdot Hlast.
  assert (Hsplit : split_keys [py "ui." ++ k] = py "ui" :: split_dot k).
  { unfold split_keys.
    assert (has_dot (py "ui." ++ k) = true) as -> by (vm_compute; reflexivity).
    simpl. by destruct (split_dot k). }
  pose proof (split_dot_no_dot k) as Hsegs.
  destruct (split_dot k) as [|seg rest] eqn:Hk; [by apply split_dot_nonempty in Hk|].
  assert (Hparts : removelast (py "ui" :: seg :: rest)
                   = py "ui" :: removelast (seg :: rest)) by reflexivity.
  assert (Hl : List.last (py "ui" :: seg :: rest) [] = List.last (seg :: rest) [])
    by reflexivity.
  assert (Hnot : k ∉ removelast (seg :: rest) ++ [List.last (seg :: rest) []]).
  { rewrite <- app_removelast_last by done. intros Hin.
    rewrite Forall_forall in Hsegs. specialize (Hsegs k Hin). congruence. }
  assert (Hui : List.last (seg :: rest) [] ≠ py "ui").
  { intros Heq. apply Hlast. rewrite Heq. apply list_elem_of_here. }
  unfold get_ui_config. split.
  - cbn [get_config split_keys]. 
    destruct Hroot as [Hnone | (r & Hr & Hd)].
    + rewrite set_config_run_None by done. cbn [objects _config snd].
      rewrite Hsplit, Hparts, Hl, Hnone.
      rewrite dotted_key_unread; [|rewrite lookup_insert_eq; eauto|done|done].
      cbn [lookup_path deref]. by rewrite lookup_insert_eq, lookup_empty.
    + rewrite (set_config_run _ _ _ r) by done. cbn [objects _config snd].
      rewrite Hsplit, Hparts, Hl, Hr.
      by apply dotted_key_unread.
  - assert (Hget : forall s, get_config s (py "ui" :: seg :: rest) default
                     = lookup_path (objects s) (_config s) (py "ui" :: seg :: rest)
                         default) by (intros s; by destruct rest).
    rewrite Hget.
    assert (Hoff : forall h c,
               written h c (removelast (py "ui" :: seg :: rest))
                 (List.last (py "ui" :: seg :: rest) [])
               ∉ followed h c (removelast (py "ui" :: seg :: rest))).
    { intros h c. apply written_not_followed. by rewrite Hparts, Hl. }
    destruct Hroot as [Hnone | (r & Hr & Hd)].
    + rewrite set_config_run_None by done. cbn [objects _config snd].
      rewrite Hsplit.
      rewrite (app_removelast_last (l := py "ui" :: seg :: rest) []) at 3 by done.
      apply lookup_store_path; [rewrite lookup_insert_eq; eauto|apply Hoff].
    + rewrite (set_config_run _ _ _ r) by done. cbn [objects _config snd].
      rewrite Hsplit.
      rewrite (app_removelast_last (l := py "ui" :: seg :: rest) []) at 3 by done.
      apply lookup_store_path; [done|apply Hoff].
Qed.

(** ** Reading accessors *)

(** X4. [get_default_model] never answers a false value: an empty or
    missing "default_model" under "asr" and under "transcription" gives
    "vosk_small". *)
Theorem get_default_model_truthy (self : t) :
  truth_value (objects self) (get_default_model self) = true.
Proof.
  unfold get_default_model.
  destruct (truth_value (objects self)
              (get_config self [py "asr"; py "default_model"] ONone)) eqn:E1;
    [done|].
  destruct (truth_value (objects self)
              (get_config self [py "transcription"; py "default_model"] ONone))
    eqn:E2; done.
Qed.

Lemma validate_config_inv (h : heap) (config : gmap pystr pyobj) :
  validate_config h config = Ok true ->
  is_Some (config !! py "app")
  /\ exists r asr m, config !! py "asr" = Some (ORef r)
                   /\ h !! r = Some asr
                   /\ asr !! py "models" = Some m /\ truth_value h m = true.
Proof.
  unfold validate_config.
  destruct (bool_decide (config = ∅)); [done|].
  destruct (bool_decide (is_Some (config !! py "app"))) eqn:Happ; [|done].
  apply bool_decide_eq_true in Happ. cbn [negb].
  destruct (config !! py "asr") as [[| | |s|r]|] eqn:Hasr; try done.
  - by destruct (contains s (py "models")).
  - destruct (h !! r) as [asr|] eqn:Hr; [|done].
    destruct (asr !! py "models") as [m|] eqn:Hm; [|done].
    intros [= Ht]. split; [done|]. by exists r, asr, m.
Qed.

(** X5. [validate_config] answers true exactly when the configuration
    has an "app" entry and an "asr" entry that is a dict with a non-empty
    "models" entry. *)
Theorem validate_config_true (h : heap) (config : gmap pystr pyobj) :
  validate_config h config = Ok true <->
    is_Some (config !! py "app")
    /\ exists r asr m, config !! py "asr" = Some (ORef r)
                     /\ h !! r = Some asr
                     /\ asr !! py "models" = Some m /\ truth_value h m = true.
Proof.
  split; [apply validate_config_inv|].
  unfold validate_config.
  intros [Happ (r & asr & m & Hasr & Hr & Hm & Ht)].
  rewrite bool_decide_eq_false_2
    by (intros ->; by rewrite lookup_empty in Hasr).
  rewrite (bool_decide_eq_true_2 _ Happ), Hasr, Hr, Hm. cbn [negb].
  by rewrite Ht.
Qed.

(** A new dict changes nothing for the values that were there. *)
Lemma truth_value_new_dict (h : heap) (v : pyobj) :
  truth_value h v = true -> truth_value (<[fresh (dom h) := ∅]> h) v = true.
Proof.
  destruct v as [| | | |r]; try done. cbn [truth_value].
  destruct (h !! r) as [d|] eqn:Hr; [|done].
  rewrite lookup_insert_ne; [by rewrite Hr|].
  intros <-. apply (is_fresh (dom h)). apply elem_of_dom. eauto.
Qed.

Lemma lookup_new_dict (h : heap) (r : ref) (d : gmap pystr pyobj) :
  h !! r = Some d -> (<[fresh (dom h) := ∅]> h) !! r = Some d.
Proof.
  intros Hr. rewrite lookup_insert_ne; [done|].
  intros <-. apply (is_fresh (dom h)). apply elem_of_dom. eauto.
Qed.

(** X6. A configuration that [validate_config] accepts, taken as the
    root of a manager, has models to list: what [get_all_models] answers
    is not empty. *)
Theorem validate_config_has_models (h : heap) (root : ref)
    (config : gmap pystr pyobj) :
  h !! root = Some config ->
  validate_config h config = Ok true ->
  truth_value
    (objects (get_all_models {| objects := h; _config := ORef root |}).2)
    (get_all_models {| objects := h; _config := ORef root |}).1
  = true.
Proof.
  intros Hroot Hv.
  apply validate_config_inv in Hv as [_ (r & asr & m & Hasr & Hr & Hm & Ht)].
  unfold get_all_models, get_config_or_new, new_dict. cbn [objects _config].
  set (h1 := <[fresh (dom h) := ∅]> h).
  destruct (truth_value h1 _) eqn:E1; [done|].
  set (h2 := <[fresh (dom h1) := ∅]> h1).
  assert (Hroot2 : h2 !! root = Some config) by (by do 2 apply lookup_new_dict).
  assert (Hr2 : h2 !! r = Some asr) by (by do 2 apply lookup_new_dict).
  assert (Hget : get_config {| objects := h2; _config := ORef root |}
                   [py "asr"; py "models"] (ORef (fresh (dom h1))) = m).
  { cbn [get_config split_keys lookup_path deref objects _config].
    rewrite Hroot2, Hasr. cbn [deref]. by rewrite Hr2, Hm. }
  rewrite Hget.
  assert (Ht2 : truth_value h2 m = true) by (by do 2 apply truth_value_new_dict).
  by rewrite Ht2.
Qed.

(** ** Saving *)

Lemma ensure_root_ref (self : t) (r : ref) :
  _config self = ORef r -> ensure_root self = self.
Proof. unfold ensure_root. by intros ->. Qed.

Lemma root_is_mapping_ensure (self : t) :
  root_is_mapping self ->
  _config (ensure_root self) = ORef (root_ref self)
  /\ objects (ensure_root self) !! root_ref self = Some (root_dict self).
Proof.
  unfold root_ref, root_dict, ensure_root, new_dict.
  intros [Hnone | (r & Hr & [d Hd])].
  - rewrite Hnone. cbn [_config objects deref]. by rewrite lookup_insert_eq.
  - rewrite !Hr. cbn [deref]. by rewrite Hd.
Qed.

Lemma wants_unsaved (section : pystr) (name : pystr) :
  unsaved_section section ->
  name ∈ [py "main"; py "plugins"; py "ui"; py "translation"; py "models"] ->
  wants (Some section) name = false.
Proof.
  intros Hun Hin. unfold wants. apply bool_decide_eq_false_2.
  intros ->. by apply Hun.
Qed.

(** X7. [update_and_save] for a section that is none of "main",
    "plugins", "ui", "translation", "models" answers true and assigns the
    section in the root dict, and writes no file. *)
Theorem update_and_save_unsaved_section `{OsPath} `{JsonLib} (ps : paths)
    (self : t) (section : pystr) (config : pyobj) (dk : disk) :
  root_is_mapping self ->
  unsaved_section section ->
  update_and_save ps self section config dk
  = (true,
     {| objects := <[root_ref self := <[section := config]> (root_dict self)]>
                     (objects (ensure_root self));
        _config := ORef (root_ref self) |},
     dk).
Proof.
  intros Hroot Hun.
  destruct (root_is_mapping_ensure self Hroot) as [Hcfg Hobj].
  unfold update_and_save. rewrite Hcfg, Hobj.
  unfold save_config.
  assert (Hw : forall name,
             name ∈ [py "main"; py "plugins"; py "ui"; py "translation"; py "models"] ->
             wants (Some section) name = false)
    by (intros; by apply wants_unsaved).
  rewrite (ensure_root_ref _ (root_ref self)) by done.
  cbn [objects _config deref]. rewrite lookup_insert_eq.
  rewrite !Hw
    by (repeat first [apply list_elem_of_here | apply list_elem_of_further]).
  reflexivity.
Qed.

Lemma write_json_ok (path : pystr) (text : option pyval) (dk : disk) :
  path ∉ read_only dk ->
  write_json path text dk
  = (bool_decide (is_Some text), put_file path (dumped text) dk).
Proof.
  intros Hp. unfold write_json. rewrite bool_decide_eq_false_2 by done.
  destruct text; [by rewrite bool_decide_eq_true_2 by eauto|].
  by rewrite bool_decide_eq_false_2 by (by intros [? ?]).
Qed.

Lemma wants_all (section name : pystr) :
  wants (Some section) name = bool_decide (section = name).
Proof. done. Qed.


Lemma save_config_plugins `{OsPath} `{JsonLib} (ps : paths) (self : t) (r : ref)
    (d : gmap pystr pyobj) (dk : disk) :
  _config self = ORef r ->
  objects self !! r = Some d ->
  (save_config ps self (Some (py "plugins")) dk).1.2 = self.
Proof.
  intros Hroot Hd. unfold save_config.
  rewrite (ensure_root_ref _ r) by done. rewrite Hroot. cbn [deref]. rewrite Hd.
  by destruct (write_all _ dk).
Qed.

(** X9. When the main file can be opened for writing and the plugins file
    cannot, [save_config] of everything answers false; the main file has
    been written, or holds what a failed [json.dump] left of it, and no
    other file is touched: nothing is rolled back. *)
Theorem save_config_partial `{OsPath} `{JsonLib} (ps : paths) (self : t)
    (r : ref) (d : gmap pystr pyobj) (dk : disk) :
  _config self = ORef r ->
  objects self !! r = Some d ->
  _config_path ps ∉ read_only dk ->
  _plugins_path ps ∈ read_only dk ->
  save_config ps self None dk
  = (false, self,
     put_file (_config_path ps)
       (dumped (dict_to_json max_depth (objects self) (main_part d))) dk).
Proof.
  intros Hroot Hd Hmain Hplug. unfold save_config.
  rewrite (ensure_root_ref _ r) by done. rewrite Hroot. cbn [deref]. rewrite Hd.
  cbn [wants app write_all].
  unfold write_json at 1. rewrite bool_decide_eq_false_2 by done.
  destruct (dict_to_json max_depth (objects self) (main_part d)); [|done].
  unfold write_json at 1. cbn [read_only put_file].
  by rewrite bool_decide_eq_true_2.
Qed.

(** ** What [json.dump] writes *)




(** ** [set_config] then a save *)

Lemma set_config_true (self : t) (value : pyobj) (keys : list pystr) :
  root_is_mapping self -> keys ≠ [] -> (set_config self value keys).1 = true.
Proof.
  intros [Hnone | (r & Hr & Hd)] Hne.
  - by rewrite set_config_run_None.
  - by rewrite (set_config_run _ _ _ r).
Qed.


Lemma set_config_root (self : t) (value : pyobj) (keys : list pystr) :
  root_is_mapping self -> keys ≠ [] ->
  exists r d,
    _config (set_config self value keys).2 = ORef r
    /\ objects (set_config self value keys).2 !! r = Some d.
Proof.
  intros Hroot Hne.
  destruct (set_config_root_is_mapping self value keys Hroot)
    as [Hnone | (r & Hr & [d Hd])]; [|eauto].
  destruct Hroot as [Hn | (r & Hr & Hd)].
  - by rewrite set_config_run_None in Hnone.
  - by rewrite (set_config_run _ _ _ r) in Hnone.
Qed.








(** ** Plugins *)

(** A value that is true stays true: [store_path] removes no entry. *)
Lemma truth_value_store_path (h : heap) (c : ref) (init : list pystr)
    (lastk : pystr) (value v : pyobj) :
  truth_value h v = true ->
  truth_value (store_path h c init lastk value) v = true.
Proof.
  destruct v as [| | | |x]; try done. cbn [truth_value].
  destruct (h !! x) as [d|] eqn:Hx; [|done].
  intros Hne%negb_true_iff%bool_decide_eq_false.
  destruct (map_choose d Hne) as (k & y & Hk).
  destruct (store_path_entry lastk value init h c x d k Hx (mk_is_Some _ _ Hk))
    as (d' & -> & [y' Hy']).
  apply negb_true_iff, bool_decide_eq_false. intros ->.
  by rewrite lookup_empty in Hy'.
Qed.

(** While "plugins" has no "plugins" entry of its own, an assignment
    under "plugins" of another key leaves it without one. *)
Lemma nested_plugins_stays_none (h : heap) (c : ref) (plugin_id : pystr)
    (plugin_config : pyobj) :
  is_Some (h !! c) ->
  plugin_id ≠ py "plugins" ->
  lookup_path h (ORef c) [py "plugins"; py "plugins"] ONone = ONone ->
  lookup_path (store_path h c [py "plugins"] plugin_id plugin_config) (ORef c)
    [py "plugins"; py "plugins"; plugin_id] ONone
  = ONone.
Proof.
  intros [d Hc] Hid Hnone. cbn [store_path].
  destruct (subdict h c (py "plugins")) as [p|] eqn:Hsub.
  - apply subdict_Some in Hsub as (d0 & Hd0 & Hpl & [dp Hp]).
    assert (d0 = d) as -> by congruence.
    cbn [lookup_path deref] in Hnone. rewrite Hc, Hpl in Hnone.
    cbn [deref] in Hnone. rewrite Hp in Hnone.
    assert (Hc' : exists d', alter (insert plugin_id plugin_config) p h !! c = Some d'
                             /\ d' !! py "plugins" = Some (ORef p)).
    { destruct (decide (c = p)) as [->|Hcp].
      - rewrite lookup_alter_eq, Hc. cbn [fmap option_fmap option_map].
        eexists. split; [done|]. by rewrite lookup_insert_ne.
      - rewrite lookup_alter_ne by done. eauto. }
    destruct Hc' as (d' & Hd' & Hpl').
    cbn [lookup_path deref]. rewrite Hd', Hpl'. cbn [deref].
    rewrite lookup_alter_eq, Hp. cbn [fmap option_fmap option_map].
    rewrite lookup_insert_ne by done.
    destruct (dp !! py "plugins") as [v|]; [|done].
    subst v. done.
  - destruct (make_subdict_lookup h c (py "plugins") c d Hc)
      as (d1 & Hd1 & _ & Hnew).
    set (h1 := <[fresh (dom h) := ∅]> _) in *.
    assert (Hne : c ≠ fresh (dom h)) by (apply fresh_not_in; eauto).
    cbn [lookup_path deref]. rewrite lookup_alter_ne by done.
    rewrite Hd1, Hnew by done. cbn [deref].
    rewrite lookup_alter_eq. unfold h1 at 1. rewrite lookup_insert_eq.
    cbn [fmap option_fmap option_map].
    by rewrite lookup_insert_ne, lookup_empty.
Qed.

Lemma register_plugin_state `{OsPath} `{JsonLib} (ps : paths) (self : t)
    (plugin_id : pystr) (plugin_config : pyobj) (dk : disk) (keys : list pystr) :
  root_is_mapping self ->
  keys ≠ [] ->
  (forall ok s, set_config self plugin_config keys = (ok, s) ->
     (if negb ok then (false, s, dk)
      else save_config ps s (Some (py "plugins")) dk).1.2
     = (set_config self plugin_config keys).2).
Proof.
  intros Hroot Hne ok s Hset.
  pose proof (set_config_true self plugin_config keys Hroot Hne) as Ht.
  destruct (set_config_root self plugin_config keys Hroot Hne)
    as (r & d & Hr & Hd).
  rewrite Hset in *. cbn [fst snd] in *. subst ok. cbn [negb].
  by apply (save_config_plugins ps s r d).
Qed.

(** X13. A non-empty plugin configuration registered by
    [register_plugin] under an identifier other than "plugins" is what
    [get_plugin_config] answers for that identifier, under either layout
    of the "plugins" section. *)
Theorem register_plugin_get_plugin_config `{OsPath} `{JsonLib} (ps : paths)
    (self : t) (plugin_id : pystr) (plugin_config : pyobj) (dk : disk) :
  root_is_mapping self ->
  truth_value (objects self) plugin_config = true ->
  plugin_id ≠ py "plugins" ->
  get_plugin_config (register_plugin ps self plugin_id plugin_config dk).1.2 plugin_id
  = plugin_config.
Proof.
  intros Hroot Ht Hid.
  assert (Hstate : exists keys,
            (keys = [py "plugins"; plugin_id]
             /\ get_config self [py "plugins"; py "plugins"] ONone = ONone
             \/ keys = [py "plugins"; py "plugins"; plugin_id]
                /\ get_config self [py "plugins"; py "plugins"] ONone ≠ ONone)
            /\ (register_plugin ps self plugin_id plugin_config dk).1.2
               = (set_config self plugin_config keys).2).
  { unfold register_plugin.
    destruct (get_config self [py "plugins"; py "plugins"] ONone) eqn:Hpp.
    1:{ exists [py "plugins"; plugin_id]. split; [by left|].
        destruct (set_config self plugin_config [py "plugins"; plugin_id])
          as [ok st] eqn:Hset.
        rewrite <- Hset.
        by apply (register_plugin_state ps self plugin_id plugin_config dk). }
    all: exists [py "plugins"; py "plugins"; plugin_id]; split; [by right|];
      destruct (set_config self plugin_config
                  [py "plugins"; py "plugins"; plugin_id]) as [ok st] eqn:Hset;
      rewrite <- Hset;
      by apply (register_plugin_state ps self plugin_id plugin_config dk). }
  destruct Hstate as (keys & [[-> Hpp] | [-> Hpp]] & ->); unfold get_plugin_config.
  - assert (Hfirst : get_config (set_config self plugin_config
                                   [py "plugins"; plugin_id]).2
                       [py "plugins"; py "plugins"; plugin_id] ONone = ONone).
    { rewrite get_config_run by done.
      assert (Hs3 : split_keys [py "plugins"; py "plugins"; plugin_id]
                    = [py "plugins"; py "plugins"; plugin_id]) by reflexivity.
      rewrite Hs3.
      rewrite get_config_run in Hpp by done.
      assert (Hs2 : split_keys [py "plugins"; py "plugins"]
                    = [py "plugins"; py "plugins"]) by reflexivity.
      rewrite Hs2 in Hpp.
      destruct Hroot as [Hnone | (r & Hr & Hd)].
      + rewrite set_config_run_None by done. cbn [objects _config snd].
        apply (nested_plugins_stays_none _ _ plugin_id plugin_config);
          [rewrite lookup_insert_eq; eauto|done|].
        cbn [lookup_path deref]. by rewrite lookup_insert_eq, lookup_empty.
      + rewrite (set_config_run _ _ _ r) by done. cbn [objects _config snd].
        apply (nested_plugins_stays_none _ _ plugin_id plugin_config);
          [done|done|]. by rewrite <- Hr. }
    rewrite Hfirst. cbn [truth_value].
    apply store_then_lookup; [done|done|].
    apply entry_off_path_last_key. cbn [split_keys removelast List.last].
    rewrite not_elem_of_cons. split; [done|apply not_elem_of_nil].
  - assert (Hoff : entry_off_path self [py "plugins"; py "plugins"; plugin_id]).
    { apply entry_off_path_last_key. cbn [split_keys removelast List.last].
      rewrite !not_elem_of_cons. repeat split; try done. apply not_elem_of_nil. }
    rewrite (store_then_lookup self plugin_config ONone
               [py "plugins"; py "plugins"; plugin_id] Hroot ltac:(done) Hoff).
    assert (Htrue : truth_value
              (objects (set_config self plugin_config
                          [py "plugins"; py "plugins"; plugin_id]).2)
              plugin_config = true).
    { destruct Hroot as [Hnone | (r & Hr & Hd)].
      - exfalso. apply Hpp. rewrite get_config_run by done. by rewrite Hnone.
      - rewrite (set_config_run _ _ _ r) by done. cbn [objects snd].
        by apply truth_value_store_path. }
    by rewrite Htrue.
Qed.

(** ** Listing models *)


(** ** The layout of a model directory *)

(** X14. For the model type "vosk", [validate_model_files] answers true
    exactly when the model path exists and its "am" and "conf"
    subdirectories are directories. *)
Theorem validate_model_files_vosk `{OsPath} (fs : filesystem) (model_path : pystr) :
  validate_model_files fs model_path (py "vosk")
  = path_exists fs model_path
    && path_isdir fs (join model_path (py "am"))
    && path_isdir fs (join model_path (py "conf")).
Proof.
  unfold validate_model_files.
  assert (startswith (py "vosk") (py "sherpa") = false) as -> by reflexivity.
  rewrite bool_decide_eq_true_2 by reflexivity.
  assert (Hdir : forall q, path_exists fs q && path_isdir fs q = path_isdir fs q).
  { intros q. unfold path_exists, path_isdir. by destruct (entries fs !! q) as [[]|]. }
  destruct (path_exists fs model_path); [|done].
  cbn [negb forallb vosk_required_dirs andb]. rewrite !Hdir.
  by rewrite andb_true_r.
Qed.

(** X15. For a model type that neither starts with "sherpa" nor is
    "vosk", [validate_model_files] checks nothing but the existence of
    the model path. *)
Theorem validate_model_files_unknown_type `{OsPath} (fs : filesystem)
    (model_path model_type : pystr) :
  startswith model_type (py "sherpa") = false ->
  model_type ≠ py "vosk" ->
  validate_model_files fs model_path model_type = path_exists fs model_path.
Proof.
  intros Hs Hv. unfold validate_model_files.
  rewrite Hs, (bool_decide_eq_false_2 _ Hv).
  by destruct (path_exists fs model_path).
Qed.

End ConfigManagerMore.

(* ===================================================================== *)
(** * Further properties of [VoskPlugin] *)
(* ===================================================================== *)

Section VoskMore.
Import Vosk.
Context {os : OsPath} {lib : VoskLib} {uni : Unicode} {et : ExnText}.
Variable fs : filesystem.

(** ** Rules for [ensures] *)

Lemma ensures_ret {A} (a : A) (Q : A -> world -> Prop) :
  (forall w, Q a w) -> ensures (mret a) Q.
Proof. intros H w. apply H. Qed.

Lemma ensures_raise {A} (e : exn) (Q : A -> world -> Prop) : ensures (raise e) Q.
Proof. by intros w. Qed.

Lemma ensures_bind {A B} (c : M world A) (f : A -> M world B) (Q : B -> world -> Prop) :
  (forall a, ensures (f a) Q) -> ensures (c ≫= f) Q.
Proof.
  intros Hf w. unfold mbind, M_bind. destruct (c w) as [[a|e] w']; [apply Hf|done].
Qed.

Lemma ensures_try {A} (c : M world A) (h : exn -> M world A) (Q : A -> world -> Prop) :
  ensures c Q -> (forall e, ensures (h e) Q) -> ensures (try_except c h) Q.
Proof.
  intros Hc Hh w. unfold try_except. specialize (Hc w).
  destruct (c w) as [[a|e] w']; [done|apply Hh].
Qed.

Lemma setup_load_loaded p mock : ensures (setup_load p mock) loaded.
Proof.
  intros w. destruct w as [st [cfg ini m r sr uw et0 md] tr].
  unfold setup_load, try_except, mbind, M_bind, lift, get, set_self, modify,
    on_recognizer, log, mret, M_ret, loaded, active. simpl.
  destruct (new_Model p) as [m'|e]; simpl.
  - destruct (new_KaldiRecognizer (Some m') sr) as [r'|e]; simpl.
    + destruct (SetWords uw r') as [[u|e] r'']; simpl; [by eauto|].
      destruct (truthy mock); simpl; [|done].
      destruct (new_KaldiRecognizer (Some m') sr); simpl; [by eauto|done].
    + destruct (truthy mock); simpl; [|done].
      destruct (new_KaldiRecognizer (Some m') sr); simpl; [by eauto|done].
  - destruct (truthy mock); simpl; [|done].
    destruct (new_Model (py "mock_model_path")) as [m'|e']; simpl; [|done].
    destruct (new_KaldiRecognizer (Some m') sr) as [r'|e2]; simpl.
    + destruct (SetWords uw r') as [[u|e3] r'']; simpl; [by eauto|].
      destruct (new_KaldiRecognizer (Some m') sr); simpl; [by eauto|done].
    + destruct (new_KaldiRecognizer (Some m') sr); simpl; [by eauto|done].
Qed.

Ltac ensures_step :=
  lazymatch goal with
  | |- ensures (setup_load _ _) _ => apply setup_load_loaded
  | |- ensures (mbind _ _) _ => apply ensures_bind; intros ?
  | |- ensures (mret false) _ => apply ensures_ret; intros ? ?; discriminate
  | |- ensures (raise _) _ => apply ensures_raise
  | |- ensures (try_except _ _) _ => apply ensures_try; [|intros ?]
  | |- ensures (if ?b then _ else _) _ => destruct b
  | |- ensures (match ?x with _ => _ end) _ => destruct x
  end.

Lemma setup_loaded : ensures (setup fs) loaded.
Proof.
  unfold setup, setup_body, setup_check, setup_missing.
  repeat ensures_step.
Qed.

(** X16. When [initialize] answers true the plugin holds a model and a
    recognizer, is marked initialized, has the engine type "vosk_small",
    and retains the reference it was given. *)
Theorem initialize_activates (config : loc) (w : world) :
  (initialize fs config w).1 = Ok true ->
  active (initialize fs config w).2
  /\ _initialized (self (initialize fs config w).2) = true
  /\ engine_type (self (initialize fs config w).2) = py "vosk_small"
  /\ _config (self (initialize fs config w).2) = Some config.
Proof.
  destruct (initialize_run fs config w) as (b & w' & Hs & Hi).
  rewrite Hi. cbn [fst snd]. intros [= ->].
  pose proof (setup_loaded (upd_self (with_config (Some config)) w)) as Hl.
  rewrite Hs in Hl. destruct (Hl eq_refl) as [[Hm Hr] He].
  destruct (frame_setup fs config (upd_self (with_config (Some config)) w) eq_refl)
    as (Hc & _ & _).
  rewrite Hs in Hc. cbn [snd] in Hc.
  by repeat split.
Qed.




(** ** [teardown] and the idle plugin *)

Lemma idle_transcribe_file (p : pystr) (w : world) :
  recognizer (self w) = None ->
  transcribe_file fs p w = (Ok None, add_event (EvError RecognizerNotInitialized) w).
Proof.
  intros Hr. unfold transcribe_file, try_except, mbind, M_bind, get. by rewrite Hr.
Qed.

Lemma idle_process_audio (data : list Z) (w : world) :
  recognizer (self w) = None ->
  process_audio data w
  = (Ok {[ py "error" := VStr not_initialized_text ]},
     add_event (EvError RecognizerNotInitialized) w).
Proof.
  intros Hr. unfold process_audio, try_except, mbind, M_bind, get. by rewrite Hr.
Qed.

Lemma transcribe_run (data : list Z) (w : world) :
  transcribe data w =
  match process_audio data w with
  | (Ok d, w') =>
      (Ok (if bool_decide (is_Some (d !! py "error")) then None
           else Some (dict_get d (py "text") (VStr []))), w')
  | (Raise _, w') => (Ok None, w')
  end.
Proof.
  unfold transcribe, try_except, mbind, M_bind.
  destruct (process_audio data w) as [[d|e] w']; [|done].
  by destruct (bool_decide _).
Qed.

Lemma create_recognizer_run (w : world) :
  exists o, create_recognizer w = (Ok o, w)
            /\ (model (self w) = None -> o = None).
Proof.
  unfold create_recognizer, try_except, mbind, M_bind, get, lift, call_local.
  destruct (model (self w)) as [m|]; [|by eexists].
  destruct (new_KaldiRecognizer _ _) as [r|e]; [|by eexists].
  destruct (SetWords _ r) as [[u|e] r']; by eexists.
Qed.

(** X19. [teardown] answers true and drops model and recognizer, leaving
    the initialized flag as it was; afterwards [transcribe_file],
    [transcribe] and [create_recognizer] all answer [None]. *)
Theorem teardown_silences (p : pystr) (data : list Z) (w : world) :
  (teardown w).1 = Ok true
  /\ idle (teardown w).2
  /\ _initialized (self (teardown w).2) = _initialized (self w)
  /\ (transcribe_file fs p (teardown w).2).1 = Ok None
  /\ (transcribe data (teardown w).2).1 = Ok None
  /\ (create_recognizer (teardown w).2).1 = Ok None.
Proof.
  set (w' := (teardown w).2).
  assert (Hidle : idle w') by done.
  split; [done|]. split; [done|]. split; [done|].
  destruct Hidle as [Hm Hr]. split; [|split].
  - by rewrite idle_transcribe_file.
  - by rewrite transcribe_run, idle_process_audio.
  - destruct (create_recognizer_run w') as (o & -> & Ho). by rewrite Ho.
Qed.

(** X20. [create_recognizer] never raises and changes nothing in the
    plugin: the recognizer it answers is not installed. It answers one
    only when there is a model. *)
Theorem create_recognizer_detached (w : world) :
  (create_recognizer w).2 = w
  /\ exists o, (create_recognizer w).1 = Ok o
               /\ (is_Some o -> is_Some (model (self w))).
Proof.
  destruct (create_recognizer_run w) as (o & Hrun & Ho). rewrite Hrun.
  split; [done|]. exists o. split; [done|].
  intros [r ->]. destruct (model (self w)); [by eexists|]. by specialize (Ho eq_refl).
Qed.

(** ** [process_audio] and [transcribe] *)

Lemma error_ne_text : py "error" ≠ py "text".
Proof. by vm_compute. Qed.

Lemma text_ne_is_partial : py "text" ≠ py "is_partial".
Proof. by vm_compute. Qed.

Lemma error_ne_is_partial : py "error" ≠ py "is_partial".
Proof. by vm_compute. Qed.

(** The shapes of the mapping [process_audio] returns. *)
Lemma process_audio_shape (data : list Z) (w : world) :
  exists d, (process_audio data w).1 = Ok d
    /\ ((exists v, d = {[ py "error" := v ]})
        \/ (exists v, d = {[ py "text" := v ]})
        \/ (exists v, d = <[ py "text" := v ]> {[ py "is_partial" := VBool true ]})).
Proof.
  unfold process_audio, try_except, mbind, M_bind, get.
  destruct (recognizer (self w)) as [r|] eqn:Hr; [|simpl; eauto].
  destruct (on_recognizer (AcceptWaveform data) w) as [[[|]|e] w1]; [| |simpl; eauto].
  - destruct (on_recognizer Result w1) as [[res|e] w2]; simpl; eauto 6.
  - destruct (on_recognizer PartialResult w1) as [[res|e] w2]; simpl; eauto 6.
Qed.

(** X21. [process_audio] never raises and answers a mapping with either
    an "error" or a "text" entry, never both; [transcribe] leaves the
    same state and answers [None] in the first case and the text, final
    or partial alike, in the second. *)
Theorem transcribe_follows_process_audio (data : list Z) (w : world) :
  (transcribe data w).2 = (process_audio data w).2
  /\ exists d, (process_audio data w).1 = Ok d
     /\ ((is_Some (d !! py "error") /\ d !! py "text" = None
          /\ (transcribe data w).1 = Ok None)
         \/ (d !! py "error" = None
             /\ exists v, d !! py "text" = Some v
                          /\ (transcribe data w).1 = Ok (Some v))).
Proof.
  rewrite transcribe_run.
  destruct (process_audio_shape data w) as (d & Hd & Hshape).
  destruct (process_audio data w) as [r w']. simpl in Hd. subst r.
  split; [done|]. exists d. split; [done|]. cbn [fst].
  destruct Hshape as [[v ->] | [[v ->] | [v ->]]].
  - left. rewrite lookup_singleton_eq.
    rewrite lookup_singleton_ne by apply error_ne_text.
    rewrite bool_decide_eq_true_2 by eauto. eauto.
  - right. rewrite lookup_singleton_eq.
    rewrite lookup_singleton_ne by (intros H; by apply error_ne_text).
    rewrite bool_decide_eq_false_2 by (by intros [? ?]).
    split; [done|]. exists v. split; [done|].
    unfold dict_get. by rewrite lookup_singleton_eq.
  - right. rewrite lookup_insert_eq.
    rewrite lookup_insert_ne by (intros H; by apply error_ne_text).
    rewrite lookup_singleton_ne by (intros H; by apply error_ne_is_partial).
    rewrite bool_decide_eq_false_2 by (by intros [? ?]).
    split; [done|]. exists v. split; [done|].
    unfold dict_get. by rewrite lookup_insert_eq.
Qed.

(** ** What transcription leaves alone *)

#[local] Instance same_but_recognizer_refl : Reflexive same_but_recognizer.
Proof. intros w. by repeat split. Qed.

#[local] Instance same_but_recognizer_trans : Transitive same_but_recognizer.
Proof.
  intros a b c (H1&H2&H3&H4&H5&H6&H7&H8) (K1&K2&K3&K4&K5&K6&K7&K8).
  unfold same_but_recognizer. repeat split; congruence.
Qed.

Lemma sbr_on_recognizer {A} (op : KaldiRecognizer -> res A * KaldiRecognizer) :
  keeps same_but_recognizer (on_recognizer op).
Proof.
  intros w. unfold on_recognizer.
  destruct (recognizer (self w)) as [r|]; [|reflexivity].
  destruct (op r). by repeat split.
Qed.

Lemma sbr_log ev : keeps same_but_recognizer (log ev).
Proof. apply keeps_modify. intros w. by repeat split. Qed.

Lemma sbr_stream (fuel : nat) :
  forall rem results, keeps same_but_recognizer (stream fuel rem results).
Proof.
  induction fuel as [|fuel IH]; intros rem results; cbn [stream].
  - apply keeps_ret; apply _.
  - repeat first [ apply sbr_log | apply sbr_on_recognizer | apply IH | keeps_step ].
Qed.

Lemma sbr_transcribe_file (p : pystr) :
  keeps same_but_recognizer (transcribe_file fs p).
Proof.
  unfold transcribe_file, collect.
  repeat first [ apply sbr_log | apply sbr_on_recognizer | apply sbr_stream
               | keeps_step ].
Qed.

Lemma sbr_process_audio (data : list Z) :
  keeps same_but_recognizer (process_audio data).
Proof.
  unfold process_audio.
  repeat first [ apply sbr_log | apply sbr_on_recognizer | keeps_step ].
Qed.

(** X22. [transcribe_file], [process_audio] and [transcribe] change
    nothing but the recognizer (and the log): configuration, model,
    settings and cached model root are as before. *)
Theorem transcription_frame (p : pystr) (data : list Z) (w : world) :
  same_but_recognizer w (transcribe_file fs p w).2
  /\ same_but_recognizer w (process_audio data w).2
  /\ same_but_recognizer w (transcribe data w).2.
Proof.
  split; [apply sbr_transcribe_file|]. split; [apply sbr_process_audio|].
  unfold transcribe.
  revert w. change (keeps same_but_recognizer
    (try_except
       (result ← process_audio data;
        if bool_decide (is_Some (result !! py "error")) then mret None
        else mret (Some (dict_get result (py "text") (VStr []))))
       (fun _ => mret None))).
  repeat first [ apply sbr_process_audio | keeps_step ].
Qed.

(** ** The shape of a transcript *)

Lemma format_transcript_marked (s t : pystr) :
  format_transcript s = Ok (Some t) ->
  exists c, last t = Some c /\ c ∈ terminal_marks.
Proof.
  unfold format_transcript. destruct s as [|c rest]; [done|].
  destruct (last (upper c ++ rest)) as [z|] eqn:Hlast; [|done].
  destruct (bool_decide (z ∈ terminal_marks)) eqn:Hz.
  - intros [= <-]. exists z. split; [done|]. by apply bool_decide_eq_true in Hz.
  - intros [= <-]. exists 46%N. split.
    + change (py ".") with [46%N]. by rewrite last_snoc.
    + by vm_compute; repeat constructor.
Qed.

(** X23. A transcript that [transcribe_file] answers is never empty and
    ends with one of the marks ".?!,;:-". *)
Theorem transcribe_file_marked (p : pystr) (w : world) (t : pystr) :
  (transcribe_file fs p w).1 = Ok (Some t) ->
  exists c, last t = Some c /\ c ∈ terminal_marks.
Proof.
  assert (H : ensures (transcribe_file fs p) marked).
  { unfold transcribe_file.
    repeat first
      [ apply ensures_ret; intros ? ?; discriminate
      | ensures_step ].
    intros w0. unfold lift. destruct (format_transcript _) as [o|e] eqn:Hf; [|done].
    intros t0 ->. by eapply format_transcript_marked. }
  specialize (H w). destruct (transcribe_file fs p w) as [[o|e] w']; [|done].
  simpl. intros [= ->]. by apply H.
Qed.

(** ** The cached model root *)

Lemma validate_files_cached (w : world) :
  truthy (model_dir (self w)) = true ->
  exists b, (validate_files fs w).1 = Ok b
    /\ model_dir (self (validate_files fs w).2) = model_dir (self w)
    /\ forall w2, model_dir (self w2) = model_dir (self w) ->
                  (validate_files fs w2).1 = Ok b.
Proof.
  intros Hmd.
  assert (Hrun : forall w2, model_dir (self w2) = model_dir (self w) ->
    exists b, (validate_files fs w2).1 = Ok b
      /\ model_dir (self (validate_files fs w2).2) = model_dir (self w)
      /\ b = match exists_val fs (model_dir (self w)) with
             | Ok true =>
                 match join_val (model_dir (self w)) (py "am") with
                 | Ok am_dir =>
                     if negb (path_exists fs am_dir) || negb (path_isdir fs am_dir)
                     then false
                     else path_exists fs (join am_dir (py "final.mdl"))
                 | Raise _ => false
                 end
             | _ => false
             end).
  { intros w2 H2.
    destruct w2 as [st2 [cfg2 ini2 m2 r2 sr2 uw2 et2 md2] tr2].
    cbn [self model_dir] in H2. subst md2.
    unfold validate_files, try_except, mbind, M_bind, get, lift, log, modify,
      mret, M_ret.
    repeat (progress (cbn [self model_dir negb]; rewrite ?Hmd)).
    destruct (exists_val fs (model_dir (self w))) as [[|]|e]; cbn [negb];
      [|by eexists|by eexists].
    destruct (join_val (model_dir (self w)) (py "am")) as [am|e]; [|by eexists].
    destruct (negb (path_exists fs am) || negb (path_isdir fs am)); [by eexists|].
    destruct (path_exists fs (join am (py "final.mdl"))); by eexists. }
  destruct (Hrun w eq_refl) as (b & Hb & Hm & Hval).
  exists b. split; [done|]. split; [done|].
  intros w2 H2. destruct (Hrun w2 H2) as (b2 & Hb2 & _ & Hval2). congruence.
Qed.

Lemma validate_files_caches (w : world) (d : gmap pystr pyval) :
  retained w = Some d ->
  truthy (model_dir (self w)) = false ->
  validate_files fs w
  = validate_files fs (upd_self (with_model_dir (dict_get d (py "path") VNone)) w).
Proof.
  intros Hret Hmd.
  destruct w as [st [cfg ini m r sr uw et0 md] tr].
  unfold retained in Hret. cbn [self _config store model_dir] in Hret, Hmd.
  destruct cfg as [l|]; [|done].
  unfold validate_files, get_config_value, config_dict, try_except, mbind,
    M_bind, get, config_ref, deref, set_self, modify, mret, M_ret, upd_self.
  repeat (progress (cbn [self model_dir negb _config store with_model_dir];
                    rewrite ?Hmd, ?Hret)).
  destruct (truthy (dict_get d (py "path") VNone)) eqn:Hp;
    repeat (progress (cbn [self model_dir negb _config store with_model_dir trace];
                      rewrite ?Hmd, ?Hret, ?Hp)).
  - reflexivity.
  - reflexivity.
Qed.

(** X24. The first [validate_files] with a configured path caches it as
    the model root; from then on the answer is the one for that root,
    whatever the configuration says. *)
Theorem validate_files_first_root (w : world) (d : gmap pystr pyval) :
  retained w = Some d ->
  truthy (model_dir (self w)) = false ->
  truthy (dict_get d (py "path") VNone) = true ->
  model_dir (self (validate_files fs w).2) = dict_get d (py "path") VNone
  /\ forall w2, model_dir (self w2) = dict_get d (py "path") VNone ->
                (validate_files fs w2).1 = (validate_files fs w).1.
Proof.
  intros Hret Hmd Hp. rewrite (validate_files_caches w d Hret Hmd).
  set (w1 := upd_self (with_model_dir (dict_get d (py "path") VNone)) w).
  destruct (validate_files_cached w1 Hp) as (b & Hb & Hm & Hall).
  split; [exact Hm|]. intros w2 H2. rewrite Hb. by apply Hall.
Qed.

(** ** [load_model] step by step *)

Lemma load_model_run (model_path : pyval) (w : world) (l : loc)
    (d : gmap pystr pyval) :
  _config (self w) = Some l ->
  store w !! l = Some d ->
  exists b w1,
    setup fs (reloading model_path l d w) = (Ok b, w1)
    /\ load_model fs model_path w
       = (Ok b, if b then w1
                else upd_self (with_config (Some (fresh (dom (store w))))) w1).
Proof.
  intros Hcfg Hd.
  destruct (setup_total fs (reloading model_path l d w)) as [b Hb].
  destruct (setup fs (reloading model_path l d w)) as [rb w1] eqn:Hs.
  simpl in Hb. subst rb. exists b, w1. split; [done|].
  unfold load_model, try_except.
  erewrite bind_run by reflexivity. rewrite Hcfg.
  erewrite bind_run by (unfold deref; by rewrite Hd).
  erewrite bind_run by reflexivity.
  erewrite bind_run; cycle 1.
  { unfold config_setitem.
    erewrite bind_run
      by (unfold config_ref; cbn [self upd_store _config]; by rewrite Hcfg).
    reflexivity. }
  erewrite bind_run by reflexivity.
  erewrite bind_run by exact Hs.
  by destruct b.
Qed.

Lemma reloading_retained (model_path : pyval) (w : world) (l : loc)
    (d : gmap pystr pyval) :
  _config (self w) = Some l ->
  store w !! l = Some d ->
  _config (self (reloading model_path l d w)) = Some l
  /\ retained (reloading model_path l d w) = Some (<[py "path" := model_path]> d)
  /\ idle (reloading model_path l d w).
Proof.
  intros Hcfg Hd. split; [done|]. split; [|done].
  unfold retained, reloading. cbn [self upd_self with_recognizer with_model
    _config upd_store store]. rewrite Hcfg. cbn [store].
  rewrite lookup_alter_eq.
  rewrite lookup_insert_ne; [by rewrite Hd|].
  intros Heq. apply (is_fresh (dom (store w))). rewrite Heq.
  apply elem_of_dom. eauto.
Qed.

Lemma load_model_without_config (model_path : pyval) (w : world) :
  retained w = None -> (load_model fs model_path w).1 = Ok false.
Proof.
  unfold retained. intros Hret.
  unfold load_model, try_except.
  erewrite bind_run by reflexivity.
  destruct (_config (self w)) as [l|] eqn:Hcfg.
  - unfold mbind at 1, M_bind at 1, deref at 1. by rewrite Hret.
  - erewrite bind_run by reflexivity.
    erewrite bind_run by reflexivity.
    unfold setup, setup_body, try_except, mbind, M_bind, config_ref. simpl.
    by rewrite Hcfg.
Qed.

(** X25. When [load_model] answers true the plugin holds a model and a
    recognizer, has the engine type "vosk_small", and retains the same
    reference as before. *)
Theorem load_model_activates (model_path : pyval) (w : world) :
  (load_model fs model_path w).1 = Ok true ->
  active (load_model fs model_path w).2
  /\ engine_type (self (load_model fs model_path w).2) = py "vosk_small"
  /\ _config (self (load_model fs model_path w).2) = _config (self w).
Proof.
  destruct (retained w) as [d|] eqn:Hret;
    [|by rewrite load_model_without_config].
  destruct (retained_ref w d Hret) as [l Hcfg].
  assert (Hd : store w !! l = Some d) by (unfold retained in Hret; by rewrite Hcfg in Hret).
  destruct (load_model_run model_path w l d Hcfg Hd) as (b & w1 & Hs & ->).
  cbn [fst snd]. intros [= ->].
  destruct (reloading_retained model_path w l d Hcfg Hd) as (Hc0 & _ & _).
  pose proof (setup_loaded (reloading model_path l d w)) as Hl.
  rewrite Hs in Hl. destruct (Hl eq_refl) as [Hact Het].
  destruct (frame_setup fs l _ Hc0) as (Hc1 & _ & _).
  rewrite Hs in Hc1. cbn [snd] in Hc1.
  split; [done|]. split; [done|]. by rewrite Hc1, Hcfg.
Qed.

Lemma mock_mode_ne_path : py "mock_mode" ≠ py "path".
Proof. by vm_compute. Qed.

(** X26. [load_model] with a path that does not resolve, on a plugin
    that is not in mock mode, answers false and leaves the plugin
    without model and recognizer: the engine it had is not brought
    back. *)
Theorem load_model_missing_unloads (p : pystr) (w : world) (l : loc)
    (d : gmap pystr pyval) :
  _config (self w) = Some l ->
  store w !! l = Some d ->
  p ≠ [] ->
  truthy (dict_get d (py "mock_mode") (VBool false)) = false ->
  resolve_model_path fs p = None ->
  (load_model fs (VStr p) w).1 = Ok false
  /\ idle (load_model fs (VStr p) w).2.
Proof.
  intros Hcfg Hd Hne Hmock Hres.
  destruct (load_model_run (VStr p) w l d Hcfg Hd) as (b & w1 & Hs & ->).
  destruct (reloading_retained (VStr p) w l d Hcfg Hd) as (Hc0 & Hret0 & Hidle).
  set (w0 := reloading (VStr p) l d w) in *.
  set (d0 := <[py "path" := VStr p]> d) in *.
  assert (Hp0 : dict_get d0 (py "path") VNone = VStr p).
  { unfold dict_get, d0. by rewrite lookup_insert_eq. }
  assert (Hm0 : dict_get d0 (py "mock_mode") (VBool false)
                = dict_get d (py "mock_mode") (VBool false)).
  { unfold dict_get, d0. by rewrite lookup_insert_ne by (intros H; by apply mock_mode_ne_path). }
  unfold resolve_model_path in Hres.
  destruct (path_exists fs p) eqn:Hex; [done|].
  assert (Hbody : setup_body fs w0
                  = (Ok false, add_event (EvError ModelPathMissing)
                      (upd_self (with_use_words (dict_get d0 (py "use_words") (VBool true)))
                         (upd_self (with_sample_rate
                            (dict_get d0 (py "sample_rate") (VInt 16000))) w0)))).
  { rewrite (setup_body_run fs w0 d0 Hret0) by (rewrite Hp0; by destruct p).
    rewrite (setup_check_run fs _ _ w0 d0 Hret0), Hp0, Hm0, Hmock, Hex.
    cbn [negb andb].
    rewrite (setup_missing_run fs p _ _ l) by (by rewrite ?Hm0).
    by rewrite Hres. }
  unfold setup, try_except in Hs. rewrite Hbody in Hs.
  injection Hs as <- <-. cbn [fst snd]. split; [done|].
  destruct Hidle as [Hm Hr]. by split.
Qed.


(** ** [load_model] and the cached root *)

#[local] Instance same_model_dir_refl : Reflexive same_model_dir.
Proof. by intros w. Qed.

#[local] Instance same_model_dir_trans : Transitive same_model_dir.
Proof. intros a b c H1 H2. unfold same_model_dir in *. congruence. Qed.

Lemma smd_on_recognizer {A} (op : KaldiRecognizer -> res A * KaldiRecognizer) :
  keeps same_model_dir (on_recognizer op).
Proof.
  intros w. unfold on_recognizer.
  destruct (recognizer (self w)) as [r|]; [|reflexivity]. by destruct (op r).
Qed.

Lemma smd_config_ref : keeps same_model_dir config_ref.
Proof. intros w. unfold config_ref. by destruct (_config (self w)). Qed.

Lemma smd_deref l : keeps same_model_dir (deref l).
Proof. intros w. unfold deref. by destruct (store w !! l). Qed.

Ltac smd_tac :=
  repeat first
    [ apply smd_on_recognizer | apply smd_config_ref | apply smd_deref
    | solve [apply keeps_modify; intros []; reflexivity]
    | keeps_step ].

Lemma smd_load_model (model_path : pyval) :
  keeps same_model_dir (load_model fs model_path).
Proof.
  unfold load_model, teardown, setup, setup_body, setup_check, setup_missing,
    setup_load, get_config_value, config_dict, config_setitem, set_store,
    set_self, log.
  smd_tac.
Qed.

(** X27. [load_model] does not touch a cached model root: after it,
    [get_model_info] still reports the cached root as the path. *)
Theorem load_model_keeps_cached_root (model_path : pyval) (w : world) :
  truthy (model_dir (self w)) = true ->
  exists info,
    (get_model_info (load_model fs model_path w).2).1 = Ok info
    /\ info !! py "path" = Some (model_dir (self w)).
Proof.
  intros Hmd. pose proof (smd_load_model model_path w) as Hsame.
  unfold same_model_dir in Hsame.
  unfold get_model_info, mbind, M_bind, get. rewrite Hsame, Hmd.
  eexists. split; [reflexivity|].
  by vm_compute.
Qed.

End VoskMore.

(* ===================================================================== *)
(** * Further runs on the concrete environments *)
(* ===================================================================== *)

Section ConfigManagerRuns.
Import ConfigManager.
#[local] Existing Instances posix json_lib.

Lemma demo_manager_is_mapping : root_is_mapping demo_manager.
Proof. right. exists 1%positive. split; [done|]. by eexists. Defined.

(** C10 as stated does not hold. On a manager whose root dict holds
    itself under "a", [set_config(5, "a", "a")] answers true: it follows
    "a" from the root back to the root and assigns 5 to the entry it has
    just followed. The following [get_config("a", "a")] finds 5 under "a"
    where it looks for a dict, and answers the default. *)
Lemma set_config_cycle_loses_value :
  root_is_mapping looped_manager
  /\ get_config looped_manager [py "a"] ONone = _config looped_manager
  /\ (set_config looped_manager (OInt 5) [py "a"; py "a"]).1 = true
  /\ get_config (set_config looped_manager (OInt 5) [py "a"; py "a"]).2
       [py "a"; py "a"] ONone
     = ONone
  /\ get_config (set_config looped_manager (OInt 5) [py "a"; py "a"]).2
       [py "a"] ONone
     = OInt 5.
Proof.
  split.
  - right. exists 1%positive. split; [done|]. vm_compute. by eexists.
  - vm_compute. by repeat split.
Qed.

Lemma set_config_get_config_witness :
  get_config
    (set_config init (OInt 24000) [py "transcription.sample_rate"]).2
    [py "transcription.sample_rate"] ONone
  = OInt 24000.
Proof.
  apply set_config_get_config;
    [ apply init_root_is_mapping
    | apply (bool_decide_unpack _); vm_compute; exact I
    | reflexivity ].
Defined.

(** The dotted key and the key sequence name the same entry. *)
Example set_dotted_get_sequence :
  get_config
    (set_config init (OInt 24000) [py "transcription.sample_rate"]).2
    [py "transcription"; py "sample_rate"] ONone
  = OInt 24000.
Proof. vm_compute. reflexivity. Qed.

(** A dict that two entries hold is one object: a model stored along
    "alias" is read along "asr". *)
Example set_config_shared_dict :
  get_config shared_manager [py "asr"; py "models"; py "tiny"] ONone = ONone
  /\ get_config
       (set_config shared_manager (OInt 1) [py "alias"; py "models"; py "tiny"]).2
       [py "asr"; py "models"; py "tiny"] ONone
     = OInt 1.
Proof. vm_compute. by split. Qed.

Lemma set_config_frame_witness :
  (set_config demo_manager (OStr (py "light")) [py "ui.theme"]).1 = true
  /\ get_config (set_config demo_manager (OStr (py "light")) [py "ui.theme"]).2
       [py "asr"; py "models"] ONone
     = get_config demo_manager [py "asr"; py "models"] ONone.
Proof.
  apply (set_config_frame demo_manager _ _ [py "ui.theme"] [py "asr"; py "models"]
           1%positive [(1%positive, py "asr"); (3%positive, py "models")]);
    [ reflexivity | vm_compute; by eexists | discriminate | vm_compute; reflexivity
    | apply (bool_decide_unpack _); vm_compute; exact I ].
Defined.

Lemma set_ui_config_get_ui_config_witness :
  (set_ui_config demo_manager (OInt 12) [py "font"; py "size"]).1 = true
  /\ get_ui_config (set_ui_config demo_manager (OInt 12) [py "font"; py "size"]).2
       [py "font"; py "size"] ONone
     = OInt 12.
Proof.
  apply set_ui_config_get_ui_config;
    [ exact demo_manager_is_mapping
    | apply (bool_decide_unpack _); vm_compute; exact I ].
Defined.

Lemma ui_dotted_key_witness :
  get_ui_config (set_config demo_manager (OInt 12) [py "ui." ++ py "font.size"]).2
    [py "font.size"] ONone
  = get_ui_config demo_manager [py "font.size"] ONone
  /\ get_ui_config (set_config demo_manager (OInt 12) [py "ui." ++ py "font.size"]).2
       (split_dot (py "font.size")) ONone
     = OInt 12.
Proof.
  apply ui_dotted_key;
    [ exact demo_manager_is_mapping | vm_compute; reflexivity
    | apply (bool_decide_unpack _); vm_compute; exact I ].
Defined.

Lemma validate_config_true_witness :
  validate_config demo_objects demo_config = Ok true.
Proof.
  apply validate_config_true. split.
  - vm_compute. by eexists.
  - exists 3%positive, {[ py "models" := ORef 4 ]}, (ORef 4).
    repeat split; vm_compute; reflexivity.
Defined.

Lemma validate_config_has_models_witness :
  truth_value (objects (get_all_models demo_manager).2)
    (get_all_models demo_manager).1
  = true.
Proof.
  apply (validate_config_has_models demo_objects 1%positive demo_config);
    vm_compute; reflexivity.
Defined.

Lemma update_and_save_unsaved_section_witness :
  update_and_save default_paths demo_manager (py "window") (ORef 11) demo_disk
  = (true,
     {| objects := <[root_ref demo_manager :=
                       <[py "window" := ORef 11]> (root_dict demo_manager)]>
                     (objects (ensure_root demo_manager));
        _config := ORef (root_ref demo_manager) |},
     demo_disk).
Proof.
  apply update_and_save_unsaved_section; [exact demo_manager_is_mapping|].
  apply (bool_decide_unpack _). vm_compute. exact I.
Defined.


(** A string with a lone surrogate cannot be written: the save fails on
    paths that can be opened, and leaves a part of the text. *)
Example save_config_unencodable :
  (update_window_config default_paths demo_manager (OStr [55357%N]) demo_disk).1.1
  = false
  /\ json_files
       (update_window_config default_paths demo_manager (OStr [55357%N]) demo_disk).2
     !! _config_path default_paths
     = Some Garbled.
Proof. vm_compute. by split. Qed.

(** A root that holds itself cannot be written either. *)
Example save_config_cycle :
  (save_config default_paths looped_manager (Some (py "main")) demo_disk).1.1
  = false.
Proof. vm_compute. reflexivity. Qed.

Lemma save_config_partial_witness :
  save_config default_paths demo_manager None locked_disk
  = (false, demo_manager,
     put_file (_config_path default_paths)
       (dumped (dict_to_json max_depth (objects demo_manager)
                  (main_part demo_config)))
       locked_disk).
Proof.
  apply (save_config_partial default_paths demo_manager 1%positive demo_config
           locked_disk).
  - reflexivity.
  - reflexivity.
  - apply (bool_decide_unpack _). vm_compute. exact I.
  - apply (bool_decide_unpack _). vm_compute. exact I.
Defined.


(** The file then holds the model. *)
Example register_model_file :
  match json_files (register_model default_paths demo_manager (py "vosk_large")
                      (ORef 10) demo_disk).2
        !! _config_path default_paths with
  | Some (Json m) => json_path m [py "asr"; py "models"; py "vosk_large"]
  | _ => None
  end
  = Some (VDict {[ py "path" := VStr (py "/opt/large") ]}).
Proof. vm_compute. reflexivity. Qed.



Lemma register_plugin_get_plugin_config_witness :
  get_plugin_config
    (register_plugin default_paths demo_manager (py "vosk_small") (ORef 12)
       demo_disk).1.2
    (py "vosk_small")
  = ORef 12.
Proof.
  apply register_plugin_get_plugin_config;
    [ exact demo_manager_is_mapping | vm_compute; reflexivity
    | vm_compute; discriminate ].
Defined.

Lemma validate_model_files_unknown_type_witness :
  validate_model_files demo_fs (py "/opt/model") (py "whisper")
  = path_exists demo_fs (py "/opt/model").
Proof.
  apply validate_model_files_unknown_type;
    [ vm_compute; reflexivity | vm_compute; discriminate ].
Defined.

(** The model under /opt/model has an "am" but no "conf" directory. *)
Example validate_model_files_vosk_incomplete :
  validate_model_files demo_fs (py "/opt/model") (py "vosk") = false.
Proof. vm_compute. reflexivity. Qed.

End ConfigManagerRuns.

Section VoskRuns.
Import Vosk.
#[local] Existing Instances posix vosk_lib ascii_upper exn_names.

Lemma initialize_activates_witness :
  active (initialize demo_fs 2 demo_world).2
  /\ _initialized (self (initialize demo_fs 2 demo_world).2) = true
  /\ engine_type (self (initialize demo_fs 2 demo_world).2) = py "vosk_small"
  /\ _config (self (initialize demo_fs 2 demo_world).2) = Some 2%positive.
Proof. apply initialize_activates. vm_compute. reflexivity. Defined.



(** In mock mode the stand-in library gives a plugin that answers. *)
Example initialize_mock_mode :
  (initialize demo_fs 4 mock_world).1 = Ok true
  /\ mock_placeholder_path demo_fs
     = py "/home/user/models/asr/vosk/vosk-model-small-en-us-0.15".
Proof. vm_compute. by split. Qed.

Lemma transcribe_file_marked_witness :
  exists c, last (Mock.result_text ++ py " " ++ Mock.final_text ++ py ".") = Some c
            /\ c ∈ terminal_marks.
Proof.
  apply (transcribe_file_marked demo_fs (py "speech.wav") ready_world).
  vm_compute. reflexivity.
Defined.

Lemma validate_files_first_root_witness :
  model_dir (self (validate_files demo_fs ready_world).2)
  = dict_get model_config (py "path") VNone
  /\ forall w2, model_dir (self w2) = dict_get model_config (py "path") VNone ->
                (validate_files demo_fs w2).1 = (validate_files demo_fs ready_world).1.
Proof.
  apply validate_files_first_root; vm_compute; reflexivity.
Defined.

Lemma load_model_activates_witness :
  active (load_model demo_fs (VStr (py "/opt/model")) ready_world).2
  /\ engine_type (self (load_model demo_fs (VStr (py "/opt/model")) ready_world).2)
     = py "vosk_small"
  /\ _config (self (load_model demo_fs (VStr (py "/opt/model")) ready_world).2)
     = _config (self ready_world).
Proof. apply load_model_activates. vm_compute. reflexivity. Defined.

Lemma load_model_missing_unloads_witness :
  (load_model demo_fs (VStr (py "/nowhere/other")) ready_world).1 = Ok false
  /\ idle (load_model demo_fs (VStr (py "/nowhere/other")) ready_world).2.
Proof.
  apply (load_model_missing_unloads demo_fs _ ready_world 2%positive model_config);
    [ vm_compute; reflexivity | vm_compute; reflexivity | discriminate
    | vm_compute; reflexivity | vm_compute; reflexivity ].
Defined.

Lemma load_model_keeps_cached_root_witness :
  exists info,
    (get_model_info (load_model demo_fs (VStr (py "/opt/sherpa")) checked_world).2).1
    = Ok info
    /\ info !! py "path" = Some (model_dir (self checked_world)).
Proof. apply load_model_keeps_cached_root. vm_compute. reflexivity. Defined.

(** The cached root is the one in the configuration at the first check,
    and it survives the load of another model. *)
Example stale_model_root :
  model_dir (self checked_world) = VStr (py "/opt/model")
  /\ (load_model demo_fs (VStr (py "/opt/sherpa")) checked_world).1 = Ok true
  /\ config_item (load_model demo_fs (VStr (py "/opt/sherpa")) checked_world).2
       2 (py "path") = Some (VStr (py "/opt/sherpa")).
Proof. vm_compute. repeat split. Qed.

(** The stand-in recognizer takes every block as final. *)
Example transcribe_answers_text :
  (transcribe [1; 2; 3] ready_world).1 = Ok (Some (VStr Mock.result_text)).
Proof. vm_compute. reflexivity. Qed.

End VoskRuns.
